(** * pyConfigFiles: a shallow embedding of [pyConfigFiles/base.py]

    The development follows the source file top to bottom:
    - [Sha256]: the digest object that [calculate_hash] drives
      ([hashlib.sha256], FIPS 180-4), as an incremental object with
      [update] and [hexdigest];
    - [calculate_hash]: the chunked read loop;
    - the registry [l], [add_function], [configuration];
    - [import_from_filepath];
    - [LockAttributesMeta.__call__], [base.__init__], [base.__setattr__];
    - [base.add_modules].

    Python state is threaded explicitly: a computation is a function from
    the interpreter state to an outcome (a value or a raised exception)
    and the state it leaves behind.  A raised exception does not undo the
    mutations performed before it. *)

From Stdlib Require Import ZArith Lia List String Ascii.
From Stdlib Require Import Init.Byte Strings.Byte.
From stdpp Require Import gmap strings list.

Import ListNotations.

(** * Part I: the program *)

(** ** hashlib.sha256 *)

Module Sha256.

Local Open Scope Z_scope.

Definition wrap32 (x : Z) : Z := x mod 2 ^ 32.
Definition add32 (x y : Z) : Z := wrap32 (x + y).

Definition rotr (n x : Z) : Z :=
  Z.lor (Z.shiftr x n) (wrap32 (Z.shiftl x (32 - n))).
Definition not32 (x : Z) : Z := Z.lxor x 0xFFFFFFFF.

Definition Ch (x y z : Z) : Z := Z.lxor (Z.land x y) (Z.land (not32 x) z).
Definition Maj (x y z : Z) : Z :=
  Z.lxor (Z.land x y) (Z.lxor (Z.land x z) (Z.land y z)).
Definition bsig0 (x : Z) : Z := Z.lxor (rotr 2 x) (Z.lxor (rotr 13 x) (rotr 22 x)).
Definition bsig1 (x : Z) : Z := Z.lxor (rotr 6 x) (Z.lxor (rotr 11 x) (rotr 25 x)).
Definition ssig0 (x : Z) : Z := Z.lxor (rotr 7 x) (Z.lxor (rotr 18 x) (Z.shiftr x 3)).
Definition ssig1 (x : Z) : Z := Z.lxor (rotr 17 x) (Z.lxor (rotr 19 x) (Z.shiftr x 10)).

(** The constants of FIPS 180-4 are fractional parts of roots of the first
    primes: 32 bits of the cube roots of the first 64 primes for the round
    constants, of the square roots of the first 8 for the initial value. *)
Definition is_prime (n : Z) : bool :=
  forallb (fun d => negb (n mod d =? 0))
          (map Z.of_nat (seq 2 (Z.to_nat n - 2))).

Definition primes : list Z :=
  filter is_prime (map Z.of_nat (seq 2 310)).

(** The largest [r] below [2 ^ b] (above the bits already chosen) whose
    cube does not exceed [n]. *)
Fixpoint cube_root_bits (b : nat) (n r : Z) : Z :=
  match b with
  | O => r
  | S b' =>
      let candidate := r + 2 ^ Z.of_nat b' in
      cube_root_bits b' n
        (if candidate * candidate * candidate <=? n then candidate else r)
  end.

Definition frac_cbrt32 (p : Z) : Z :=
  wrap32 (cube_root_bits 36 (p * 2 ^ 96) 0).

Definition frac_sqrt32 (p : Z) : Z := wrap32 (Z.sqrt (p * 2 ^ 64)).

Definition K : list Z := map frac_cbrt32 primes.

(** The eight working registers / chaining value. *)
Record regs : Type := Regs
  { ra : Z; rb : Z; rc : Z; rd : Z; re : Z; rf : Z; rg : Z; rh : Z }.

Definition H0 : regs :=
  Regs (frac_sqrt32 2) (frac_sqrt32 3) (frac_sqrt32 5) (frac_sqrt32 7)
       (frac_sqrt32 11) (frac_sqrt32 13) (frac_sqrt32 17) (frac_sqrt32 19).

Definition words (r : regs) : list Z :=
  [ra r; rb r; rc r; rd r; re r; rf r; rg r; rh r].

Definition byteZ (b : byte) : Z := Z.of_N (Byte.to_N b).

Definition be32 (b0 b1 b2 b3 : byte) : Z :=
  byteZ b0 * 2 ^ 24 + byteZ b1 * 2 ^ 16 + byteZ b2 * 2 ^ 8 + byteZ b3.

Fixpoint words_of_bytes (bs : list byte) : list Z :=
  match bs with
  | b0 :: b1 :: b2 :: b3 :: rest => be32 b0 b1 b2 b3 :: words_of_bytes rest
  | _ => []
  end.

(** Next word of the message schedule from the window of the last 16. *)
Definition sched (w : list Z) : Z :=
  add32 (add32 (ssig1 (nth 14 w 0)) (nth 9 w 0))
        (add32 (ssig0 (nth 1 w 0)) (nth 0 w 0)).

Definition round (k wt : Z) (v : regs) : regs :=
  let t1 := add32 (add32 (add32 (rh v) (bsig1 (re v))) (Ch (re v) (rf v) (rg v)))
                  (add32 k wt) in
  let t2 := add32 (bsig0 (ra v)) (Maj (ra v) (rb v) (rc v)) in
  Regs (add32 t1 t2) (ra v) (rb v) (rc v) (add32 (rd v) t1) (re v) (rf v) (rg v).

Fixpoint rounds (ks : list Z) (w : list Z) (v : regs) : regs :=
  match ks with
  | [] => v
  | k :: ks' => rounds ks' (tl w ++ [sched w]) (round k (nth 0 w 0) v)
  end.

Definition compress (h : regs) (block : list byte) : regs :=
  let v := rounds K (words_of_bytes block) h in
  Regs (add32 (ra h) (ra v)) (add32 (rb h) (rb v))
       (add32 (rc h) (rc v)) (add32 (rd h) (rd v))
       (add32 (re h) (re v)) (add32 (rf h) (rf v))
       (add32 (rg h) (rg v)) (add32 (rh h) (rh v)).

(** Consume the complete 64-byte blocks of [buf]; what is left stays
    buffered. *)
Fixpoint absorb (fuel : nat) (h : regs) (buf : list byte) : regs * list byte :=
  match fuel with
  | O => (h, buf)
  | S fuel' =>
      if (length buf <? 64)%nat then (h, buf)
      else absorb fuel' (compress h (firstn 64 buf)) (skipn 64 buf)
  end.

(** The hash object: chaining value, pending bytes, bytes seen so far. *)
Record t : Type := Obj { chain : regs; pending : list byte; seen : Z }.

(** [hashlib.sha256()] *)
Definition new : t := Obj H0 [] 0.

(** [hash_algo.update(chunk)] *)
Definition update (o : t) (data : list byte) : t :=
  let buf := pending o ++ data in
  let '(h, rest) := absorb (length buf) (chain o) buf in
  Obj h rest (seen o + Z.of_nat (length data)).

Definition byte_of_Z (z : Z) : byte :=
  match Byte.of_N (Z.to_N (z mod 256)) with
  | Some b => b
  | None => x00
  end.

(** [n] bytes of [z], most significant first. *)
Fixpoint be_bytes (n : nat) (z : Z) : list byte :=
  match n with
  | O => []
  | S n' => be_bytes n' (z / 256) ++ [byte_of_Z z]
  end.

Definition padding (count : Z) : list byte :=
  x80 :: repeat x00 (Z.to_nat ((55 - count) mod 64)) ++ be_bytes 8 (8 * count).

Definition finish (o : t) : regs :=
  let buf := pending o ++ padding (seen o) in
  fst (absorb (length buf) (chain o) buf).

(** The digest as the 256-bit big-endian number it spells. *)
Definition digest_value (r : regs) : Z :=
  fold_left (fun acc w => acc * 2 ^ 32 + w) (words r) 0.

Definition hexdigit (d : Z) : ascii :=
  nth (Z.to_nat d)
      (list_ascii_of_string "0123456789abcdef") "0"%char.

Fixpoint hex_of_Z (n : nat) (z : Z) : string :=
  match n with
  | O => EmptyString
  | S n' => hex_of_Z n' (z / 16) +:+ String (hexdigit (z mod 16)) EmptyString
  end.

(** [hash_algo.hexdigest()] *)
Definition hexdigest (o : t) : string :=
  hex_of_Z 64 (digest_value (finish o)).



End Sha256.

Definition bytes_of_string (s : string) : list byte := list_byte_of_string s.

(** ** Python values, exceptions and objects *)

#[warnings="-register-all"]
Inductive value : Type :=
| VNone
| VBool (b : bool)
| VInt (z : Z)
| VStr (s : string)
| VList (xs : list value)
| VCallable (name : string).

Inductive exn : Type :=
| FileNotFoundError (path : string)
| AttributeError (msg : string)
| TypeError (msg : string)
| KeyError (key : string)
| SyntaxError
| UserError (tag : string).

(** [IOError] is [OSError]; [FileNotFoundError] is one of its subclasses. *)
Definition is_IOError (e : exn) : bool :=
  match e with FileNotFoundError _ => true | _ => false end.


Definition truthy (v : value) : bool :=
  match v with
  | VNone => false
  | VBool b => b
  | VInt z => negb (z =? 0)%Z
  | VStr s => negb (String.eqb s "")
  | VList xs => match xs with [] => false | _ => true end
  | VCallable _ => true
  end.

Definition type_name (v : value) : string :=
  match v with
  | VNone => "NoneType"
  | VBool _ => "bool"
  | VInt _ => "int"
  | VStr _ => "str"
  | VList _ => "list"
  | VCallable _ => "function"
  end.

(** An instance: the name and the (flattened) namespace of its class, and
    its own [__dict__].  The class namespace holds plain attributes and
    methods; data descriptors are outside the model. *)
Record obj : Type := Object
  { class_name : string;
    class_ns : gmap string value;
    inst_dict : gmap string value }.

(** Attribute lookup: the instance first, then its class. *)
Definition py_getattr (o : obj) (key : string) : option value :=
  match inst_dict o !! key with
  | Some v => Some v
  | None => class_ns o !! key
  end.

(** [getattr(o, key, default)] *)
Definition py_getattr_default (o : obj) (key : string) (default : value) : value :=
  match py_getattr o key with Some v => v | None => default end.

Definition py_hasattr (o : obj) (key : string) : bool :=
  match py_getattr o key with Some _ => true | None => false end.

(** [object.__setattr__] *)
Definition object_setattr (o : obj) (key : string) (v : value) : obj :=
  Object (class_name o) (class_ns o) (<[key := v]> (inst_dict o)).

(** ** Computations that may raise *)

Inductive res (A : Type) : Type :=
| Ok (a : A)
| Raise (e : exn).
Arguments Ok {A} a.
Arguments Raise {A} e.

Definition M (S A : Type) : Type := S -> res A * S.

Global Instance M_ret {S} : MRet (M S) := fun A a s => (Ok a, s).
Global Instance M_bind {S} : MBind (M S) := fun A B k m s =>
  match m s with
  | (Ok a, s') => k a s'
  | (Raise e, s') => (Raise e, s')
  end.

Definition raise {S A} (e : exn) : M S A := fun s => (Raise e, s).
Definition gets {S A} (f : S -> A) : M S A := fun s => (Ok (f s), s).
Definition modify {S} (f : S -> S) : M S unit := fun s => (Ok tt, f s).

(** ** Configuration functions, events, interpreter state *)

(** A configuration function acts on the host it is given and may raise. *)
Record cfun : Type := CFun { fn_name : string; fn_body : M obj unit }.

(** What a loaded file does at top level, as far as this library sees it:
    it decorates functions with [@configuration], and it may raise. *)
Inductive stmt : Type :=
| Decorated (f : cfun)
| Raises (e : exn).

Inductive event : Type :=
| EvHash (path : string)
| EvImport (path : string)
| EvCall (name : string).

Record state : Type := State
  { disk : gmap string (list byte);
    l : list cfun;
    sys_modules : gmap string string;
    self : obj;
    trace : list event }.

Definition set_l (v : list cfun) (s : state) : state :=
  State (disk s) v (sys_modules s) (self s) (trace s).
Definition set_sys_modules (v : gmap string string) (s : state) : state :=
  State (disk s) (l s) v (self s) (trace s).
Definition set_self (v : obj) (s : state) : state :=
  State (disk s) (l s) (sys_modules s) v (trace s).
Definition emit (ev : event) : M state unit :=
  modify (fun s => State (disk s) (l s) (sys_modules s) (self s) (trace s ++ [ev])).

(** Run a computation on the host object inside the interpreter state. *)
Definition on_self {A} (m : M obj A) : M state A := fun s =>
  let '(r, o) := m (self s) in (r, set_self o s).

(** [open(path, 'rb')] followed by reading all of it. *)
Definition read_file (path : string) : M state (list byte) := fun s =>
  match disk s !! path with
  | Some content => (Ok content, s)
  | None => (Raise (FileNotFoundError path), s)
  end.

(** ** calculate_hash *)

(** [for chunk in iter(lambda: file.read(n), b''): hash_algo.update(chunk)] *)
Fixpoint read_chunks (fuel n : nat) (rest : list byte) (hash_algo : Sha256.t)
  : Sha256.t :=
  match fuel with
  | O => hash_algo
  | S fuel' =>
      match firstn n rest with
      | [] => hash_algo
      | chunk => read_chunks fuel' n (skipn n rest) (Sha256.update hash_algo chunk)
      end
  end.

Definition hash_bytes (n : nat) (content : list byte) : string :=
  Sha256.hexdigest (read_chunks (S (length content)) n content Sha256.new).

(** The digest of a file with this content: chunks of 4096 bytes. *)
Definition file_digest (content : list byte) : string :=
  hash_bytes 4096 content.

Definition calculate_hash (file_path : string) : M state string :=
  emit (EvHash file_path);;
  content ← read_file file_path;
  mret (file_digest content).

(** ** The registry and the decorator *)

Definition add_function (name : string) (function : cfun) : M state unit :=
  modify (fun s => set_l (l s ++ [function]) s).

Definition configuration (filename : string) (func : cfun) : M state cfun :=
  add_function filename func;;
  mret func.

(** ** import_from_filepath *)

(** [s.split(sep)] for a one-character separator. *)
Fixpoint split_on (sep : ascii) (s : string) : list string :=
  match s with
  | EmptyString => [EmptyString]
  | String c rest =>
      if Ascii.eqb c sep then EmptyString :: split_on sep rest
      else match split_on sep rest with
           | w :: ws => String c w :: ws
           | [] => [String c EmptyString]
           end
  end.

(** [filepath.split('/')[-1].split('.')[0]] *)
Definition module_name_of (filepath : string) : string :=
  List.hd EmptyString
    (split_on "." (List.last (split_on "/" filepath) EmptyString)).

Definition ends_with (s suffix : string) : bool :=
  let n := String.length s in
  let m := String.length suffix in
  (m <=? n) && String.eqb (substring (n - m) m s) suffix.

(** [importlib.util.spec_from_file_location(name, location)] picks a loader
    by the suffix of [location] and returns [None] when no loader takes
    it.  A spec is the pair of the module name and its origin. *)
Definition spec_from_file_location (name location : string)
  : option (string * string) :=
  if ends_with location ".py" || ends_with location ".pyc"
     || ends_with location ".so"
  then Some (name, location)
  else None.

(** [importlib.util.module_from_spec(spec)]; a module is represented by
    its origin. *)
Definition module_from_spec (spec : option (string * string)) : M state string :=
  match spec with
  | Some (_, origin) => mret origin
  | None => raise (AttributeError "'NoneType' object has no attribute 'loader'")
  end.

Section Interpreter.

(** The meaning of a file's content as Python source: the top-level
    statements this library can observe.  A file that does not compile
    is the single statement [Raises SyntaxError]. *)
Variable interp : list byte -> list stmt.

Fixpoint run_body (filename : string) (body : list stmt) : M state unit :=
  match body with
  | [] => mret tt
  | Decorated f :: rest => configuration filename f;; run_body filename rest
  | Raises e :: _ => raise e
  end.

(** [spec.loader.exec_module(module)] *)
Definition exec_module (origin : string) : M state unit :=
  source ← read_file origin;
  run_body origin (interp source).

Definition import_from_filepath (filepath : string) : M state (list cfun) :=
  emit (EvImport filepath);;
  modify (set_l []);;
  let module_name := module_name_of filepath in
  let spec := spec_from_file_location module_name filepath in
  module ← module_from_spec spec;
  modify (fun s => set_sys_modules (<[module_name := module]> (sys_modules s)) s);;
  exec_module module;;
  ret ← gets l;
  modify (set_l []);;
  mret ret.

End Interpreter.

(** ** LockAttributesMeta and base *)

(** [base.__setattr__] *)
Definition base_setattr (key : string) (v : value) : M obj unit := fun self =>
  if truthy (py_getattr_default self "_locked" (VBool false))
     && negb (py_hasattr self key)
  then (Raise (AttributeError
                 ("Cannot add new attribute '" +:+ key +:+ "' to instances of "
                  +:+ class_name self)), self)
  else (Ok tt, object_setattr self key v).

(** A class derived from [base]: its name, its namespace (with everything
    it inherits), and the attribute assignments [self.k = v] that its
    [__init__] performs, in order. *)
Record pyclass : Type := PyClass
  { cname : string;
    namespace : gmap string value;
    init : list (string * value) }.

Fixpoint run_init (body : list (string * value)) : M obj unit :=
  match body with
  | [] => mret tt
  | (k, v) :: rest => base_setattr k v;; run_init rest
  end.

(** [LockAttributesMeta.__call__]: create, initialise, then lock. *)
Definition meta_call (cls : pyclass) : res obj :=
  fst ((run_init (init cls);;
        base_setattr "_locked" (VBool true);;
        gets (fun instance => instance))
         (Object (cname cls) (namespace cls) ∅)).

Definition base_namespace : gmap string value :=
  {[ "__init__" := VCallable "base.__init__";
     "__setattr__" := VCallable "base.__setattr__";
     "add_modules" := VCallable "base.add_modules" ]}.

(** [base] itself: [__init__] sets [self.__files__ = []]. *)
Definition base : pyclass :=
  PyClass "base" base_namespace [("__files__", VList [])].

(** ** base.add_modules *)

Definition starts_with_sep (b : string) : bool :=
  match b with String c _ => Ascii.eqb c "/" | EmptyString => false end.

(** [os.path.join(a, b)] on POSIX. *)
Definition path_join (a b : string) : string :=
  if starts_with_sep b then b
  else if String.eqb a "" || ends_with a "/" then a +:+ b
  else a +:+ "/" +:+ b.

Fixpoint str_contains (s sub : string) : bool :=
  String.prefix sub s
  || match s with
     | EmptyString => false
     | String _ rest => str_contains rest sub
     end.

Definition is_str (h : string) (v : value) : bool :=
  match v with VStr s => String.eqb s h | _ => false end.

(** [h in container] for a string [h]. *)
Definition py_in (h : string) (container : value) : res bool :=
  match container with
  | VList xs => Ok (existsb (is_str h) xs)
  | VStr s => Ok (str_contains s h)
  | other => Raise (TypeError ("argument of type '" +:+ type_name other
                               +:+ "' is not iterable"))
  end.

Definition no_attribute (o : obj) (key : string) : exn :=
  AttributeError ("'" +:+ class_name o +:+ "' object has no attribute '"
                  +:+ key +:+ "'").

(** [file_hash in self.__files__] *)
Definition hash_seen (file_hash : string) : M obj bool := fun self =>
  match py_getattr self "__files__" with
  | None => (Raise (no_attribute self "__files__"), self)
  | Some files => (py_in file_hash files, self)
  end.

(** [self.__files__.append(file_hash)]: the list object is mutated where
    it lives, in the instance or, failing that, in the class. *)
Definition append_hash (file_hash : string) : M obj unit := fun self =>
  match py_getattr self "__files__" with
  | None => (Raise (no_attribute self "__files__"), self)
  | Some (VList xs) =>
      let files := VList (xs ++ [VStr file_hash]) in
      match inst_dict self !! "__files__" with
      | Some _ => (Ok tt, object_setattr self "__files__" files)
      | None => (Ok tt, Object (class_name self)
                               (<["__files__" := files]> (class_ns self))
                               (inst_dict self))
      end
  | Some other =>
      (Raise (AttributeError ("'" +:+ type_name other
                              +:+ "' object has no attribute 'append'")), self)
  end.

(** The dict [fs]: insertion-ordered; assigning to a key that is present
    replaces its value and keeps its place. *)
Fixpoint dict_set {V} (d : list (string * V)) (k : string) (v : V)
  : list (string * V) :=
  match d with
  | [] => [(k, v)]
  | (k', v') :: rest =>
      if String.eqb k' k then (k', v) :: rest else (k', v') :: dict_set rest k v
  end.

Fixpoint dict_get {V} (d : list (string * V)) (k : string) : option V :=
  match d with
  | [] => None
  | (k', v') :: rest => if String.eqb k' k then Some v' else dict_get rest k
  end.

(** [fun(self)] *)
Definition call (fn : cfun) : M state unit :=
  emit (EvCall (fn_name fn));;
  on_self (fn_body fn).

Fixpoint call_all (fns : list cfun) : M state unit :=
  match fns with
  | [] => mret tt
  | fn :: rest => call fn;; call_all rest
  end.

Section AddModules.

Variable interp : list byte -> list stmt.

(** The caller's directory ([directory_path]). *)
Variable directory_path : string.

(** One iteration of [for f in files]. *)
Definition load_one (fs : list (string * list cfun)) (f : string)
  : M state (list (string * list cfun)) :=
  let new_path := path_join directory_path f in
  file_hash ← calculate_hash new_path;
  seen ← on_self (hash_seen file_hash);
  if seen : bool then mret fs
  else
    fns ← import_from_filepath interp new_path;
    let fs' := dict_set fs new_path fns in
    on_self (append_hash file_hash);;
    mret fs'.

Fixpoint load_loop (files : list string) (fs : list (string * list cfun))
  : M state (list (string * list cfun)) :=
  match files with
  | [] => mret fs
  | f :: rest => fs' ← load_one fs f; load_loop rest fs'
  end.

(** [for file in fs.keys(): for fun in fs[file]: fun(self)] *)
Fixpoint apply_loop (keys : list string) (fs : list (string * list cfun))
  : M state unit :=
  match keys with
  | [] => mret tt
  | file :: rest =>
      match dict_get fs file with
      | Some fns => call_all fns;; apply_loop rest fs
      | None => raise (KeyError file)
      end
  end.

Definition add_modules (files : list string) : M state unit :=
  fs ← load_loop files [];
  apply_loop (map fst fs) fs.

End AddModules.

(** ** Vocabulary for the properties below *)

(** [getattr(o, '_locked', False)] is true. *)
Definition is_locked (o : obj) : bool :=
  truthy (py_getattr_default o "_locked" (VBool false)).

Fixpoint has_char (c : ascii) (s : string) : bool :=
  match s with
  | EmptyString => false
  | String c' rest => Ascii.eqb c' c || has_char c rest
  end.

(** The functions a module body registers before it finishes or raises,
    and the exception it raises, if any. *)
Fixpoint registered (body : list stmt) : list cfun :=
  match body with
  | [] => []
  | Decorated f :: rest => f :: registered rest
  | Raises _ :: _ => []
  end.

Fixpoint body_exn (body : list stmt) : option exn :=
  match body with
  | [] => None
  | Decorated _ :: rest => body_exn rest
  | Raises e :: _ => Some e
  end.

(** The digest [d] passes the test [d in o.__files__]. *)
Definition recorded (d : string) (o : obj) : Prop :=
  fst (hash_seen d o) = Ok true.

(** A configuration function that never makes a recorded digest
    unrecorded (the list of applied files only grows). *)
Definition digest_stable (fn : cfun) : Prop :=
  forall (o : obj) (d : string),
    recorded d o -> recorded d (snd (fn_body fn o)).

(** Projections of a trace. *)
Definition called (tr : list event) : list string :=
  omap (fun ev => match ev with EvCall n => Some n | _ => None end) tr.
Definition hashed (tr : list event) : list string :=
  omap (fun ev => match ev with EvHash p => Some p | _ => None end) tr.
Definition imported (tr : list event) : list string :=
  omap (fun ev => match ev with EvImport p => Some p | _ => None end) tr.

Definition add_trace (evs : list event) (s : state) : state :=
  State (disk s) (l s) (sys_modules s) (self s) (trace s ++ evs).

(** Running the bodies of [fns] one after the other on an object. *)
Fixpoint run_fns (fns : list cfun) : M obj unit :=
  match fns with
  | [] => mret tt
  | fn :: rest => fn_body fn;; run_fns rest
  end.

(** The dict [fs] as the load phase keeps it: no key twice, and under each
    key the functions registered by the file at that path, whose digest
    the host has recorded. *)
Definition loaded_ok (interp : list byte -> list stmt) (s : state)
  (fs : list (string * list cfun)) : Prop :=
  NoDup (map fst fs)
  /\ Forall (fun entry =>
               exists c, disk s !! fst entry = Some c
                         /\ recorded (file_digest c) (self s)
                         /\ snd entry = registered (interp c)
                         /\ body_exn (interp c) = None) fs.

Definition supported (path : string) : bool :=
  match spec_from_file_location (module_name_of path) path with
  | Some _ => true
  | None => false
  end.


(** The digest of the file at a path ([EmptyString] when there is none). *)
Definition digest_of_path (d : gmap string (list byte)) (path : string)
  : string :=
  match d !! path with
  | Some content => file_digest content
  | None => EmptyString
  end.

Definition is_hex (c : ascii) : bool :=
  existsb (Ascii.eqb c) (list_ascii_of_string "0123456789abcdef").

Fixpoint all_chars (P : ascii -> bool) (s : string) : bool :=
  match s with
  | EmptyString => true
  | String c rest => P c && all_chars P rest
  end.

(** ** A concrete host, concrete files and their meaning

    Used to run the definitions above on explicit inputs. *)

Module Demo.

(** [class Host(base)] whose [__init__] calls [super().__init__()] and
    then sets [self.x = 0]. *)
Definition Host : pyclass :=
  PyClass "Host" base_namespace [("__files__", VList []); ("x", VInt 0)].

Definition host0 : obj :=
  match meta_call Host with
  | Ok instance => instance
  | Raise _ => Object "Host" base_namespace ∅
  end.

(** An instance of [base] itself. *)
Definition base0 : obj :=
  match meta_call base with
  | Ok instance => instance
  | Raise _ => Object "base" base_namespace ∅
  end.

(** [h.x += 1] *)
Definition incr_x : M obj unit := fun h =>
  match py_getattr h "x" with
  | Some (VInt z) => base_setattr "x" (VInt (z + 1)) h
  | Some _ => (Raise (TypeError "unsupported operand type(s) for +="), h)
  | None => (Raise (no_attribute h "x"), h)
  end.

(** [h.x *= 2] *)
Definition double_x : M obj unit := fun h =>
  match py_getattr h "x" with
  | Some (VInt z) => base_setattr "x" (VInt (z * 2)) h
  | Some _ => (Raise (TypeError "unsupported operand type(s) for *="), h)
  | None => (Raise (no_attribute h "x"), h)
  end.

Definition f : cfun := CFun "f" incr_x.
Definition g1 : cfun := CFun "g1" (base_setattr "x" (VInt 10)).
Definition g2 : cfun := CFun "g2" double_x.
Definition boom : cfun := CFun "boom" (raise (UserError "ValueError")).

Definition src_A : string :=
"from pyConfigFiles.base import configuration

@configuration
def f(h):
    h.x += 1
".

Definition src_B : string :=
"from pyConfigFiles.base import configuration

@configuration
def g1(h):
    h.x = 10

@configuration
def g2(h):
    h.x *= 2
".

Definition src_broken : string :=
"from pyConfigFiles.base import configuration

@configuration
def f(h):
    h.x += 1

raise RuntimeError('broken')
".

Definition src_boom : string :=
"from pyConfigFiles.base import configuration

@configuration
def boom(h):
    raise ValueError('boom')
".

(** What Python makes of these four sources; anything else is taken to
    be a file without decorated functions. *)
Definition interp (content : list byte) : list stmt :=
  let text := string_of_list_byte content in
  if String.eqb text src_A then [Decorated f]
  else if String.eqb text src_B then [Decorated g1; Decorated g2]
  else if String.eqb text src_broken
       then [Decorated f; Raises (UserError "RuntimeError")]
  else if String.eqb text src_boom then [Decorated boom]
  else [].

Definition disk0 : gmap string (list byte) :=
  {[ "/etc/app/A.py" := bytes_of_string src_A;
     "/etc/app/B.py" := bytes_of_string src_B;
     "/etc/app/broken.py" := bytes_of_string src_broken;
     "/etc/app/boom.py" := bytes_of_string src_boom;
     "/srv/alt/A.py" := bytes_of_string src_B ]}.

Definition s0 : state := State disk0 [] ∅ host0 [].

Definition hash_A : string := file_digest (bytes_of_string src_A).
Definition hash_B : string := file_digest (bytes_of_string src_B).

(** [class Bare(base)] whose [__init__] does not call
    [super().__init__()]: its instances have no [__files__]. *)
Definition Bare : pyclass := PyClass "Bare" base_namespace [("x", VInt 0)].

Definition bare0 : obj :=
  match meta_call Bare with
  | Ok instance => instance
  | Raise _ => Object "Bare" base_namespace ∅
  end.

(** [class Frozen(base)] with the class attribute [_locked = True]. *)
Definition Frozen : pyclass :=
  PyClass "Frozen" (<["_locked" := VBool true]> base_namespace)
          [("__files__", VList [])].

End Demo.

(** * Part II: properties *)

(** ** The digest object *)

Module Sha256Facts.
Import Sha256.

#[local] Arguments compress : simpl never.
#[local] Arguments rounds : simpl never.

Lemma absorb_fuel (f1 : nat) :
  forall (f2 : nat) (h : regs) (buf : list byte),
    length buf <= f1 -> length buf <= f2 ->
    absorb f1 h buf = absorb f2 h buf.
Proof.
  induction f1 as [|f1 IH]; intros f2 h buf H1 H2.
  - destruct buf; [|simpl in H1; lia]. destruct f2; reflexivity.
  - destruct f2 as [|f2].
    + destruct buf; [|simpl in H2; lia]. reflexivity.
    + simpl. destruct (Nat.ltb_spec (length buf) 64) as [Hlt|Hge].
      * reflexivity.
      * apply IH; rewrite length_skipn; lia.
Qed.

(** Absorbing [x ++ y] is absorbing [x] and then what [x] left behind
    followed by [y]. *)
Lemma absorb_app (fuel : nat) :
  forall (h : regs) (x y : list byte),
    length x <= fuel ->
    absorb (length (x ++ y)) h (x ++ y)
    = let '(h1, r1) := absorb fuel h x in
      absorb (length (r1 ++ y)) h1 (r1 ++ y).
Proof.
  induction fuel as [|fuel IH]; intros h x y Hx.
  - destruct x; [|simpl in Hx; lia]. reflexivity.
  - simpl. destruct (Nat.ltb_spec (length x) 64) as [Hlt|Hge].
    + reflexivity.
    + rewrite <- (IH _ (skipn 64 x) y) by (rewrite length_skipn; lia).
      assert (Hlen : length (x ++ y) = S (length (x ++ y) - 1))
        by (rewrite length_app; lia).
      rewrite Hlen at 1. simpl.
      destruct (Nat.ltb_spec (length (x ++ y)) 64) as [Hlt'|_].
      { rewrite length_app in Hlt'. lia. }
      rewrite firstn_app, skipn_app.
      replace (64 - length x) with 0 by lia. simpl.
      rewrite app_nil_r.
      apply absorb_fuel; rewrite !length_app, length_skipn; lia.
Qed.

(** Feeding two chunks one after the other is feeding their
    concatenation: the object is a streaming hash. *)
Lemma update_app (o : t) (a b : list byte) :
  update (update o a) b = update o (a ++ b).
Proof.
  unfold update.
  rewrite (app_assoc (pending o) a b).
  rewrite (absorb_app (length (pending o ++ a)) (chain o) (pending o ++ a) b)
    by lia.
  destruct (absorb (length (pending o ++ a)) (chain o) (pending o ++ a))
    as [h1 r1]. simpl.
  destruct (absorb (length (r1 ++ b)) h1 (r1 ++ b)) as [h2 r2].
  f_equal. rewrite length_app. lia.
Qed.









End Sha256Facts.

(** The model against the FIPS 180-4 test vectors. *)
Example round_constants :
  length Sha256.K = 64
  /\ firstn 2 Sha256.K = [0x428a2f98; 0x71374491]%Z
  /\ List.last Sha256.K 0%Z = 0xc67178f2%Z
  /\ Sha256.ra Sha256.H0 = 0x6a09e667%Z
  /\ Sha256.rh Sha256.H0 = 0x5be0cd19%Z.
Proof. repeat (split; [vm_compute; reflexivity|]). vm_compute; reflexivity. Qed.

Example sha256_empty :
  Sha256.hexdigest Sha256.new
  = "e3b0c44298fc1c149afbf4c8996fb92427ae41e4649b934ca495991b7852b855"%string.
Proof. vm_compute. reflexivity. Qed.

Example sha256_abc :
  Sha256.hexdigest (Sha256.update Sha256.new (bytes_of_string "abc"))
  = "ba7816bf8f01cfea414140de5dae2223b00361a396177a9cb410ff61f20015ad"%string.
Proof. vm_compute. reflexivity. Qed.

Example sha256_two_blocks :
  Sha256.hexdigest
    (Sha256.update Sha256.new
       (bytes_of_string
          "abcdbcdecdefdefgefghfghighijhijkijkljklmklmnlmnomnopnopq"))
  = "248d6a61d20638b8e5c026930c3e6039a33ce45964ff2167f6ecedd419db06c1"%string.
Proof. vm_compute. reflexivity. Qed.

(** Fed in two pieces, the same digest. *)
Example sha256_abc_in_pieces :
  Sha256.hexdigest
    (Sha256.update (Sha256.update Sha256.new (bytes_of_string "a"))
       (bytes_of_string "bc"))
  = "ba7816bf8f01cfea414140de5dae2223b00361a396177a9cb410ff61f20015ad"%string.
Proof. vm_compute. reflexivity. Qed.

(** ** calculate_hash: the chunked read loop *)

Lemma firstn_nonempty {A} (n : nat) (xs : list A) :
  0 < n -> xs <> [] -> firstn n xs <> [].
Proof. destruct n, xs; simpl; intros; try lia; congruence. Qed.

Lemma read_chunks_nil (fuel n : nat) (o : Sha256.t) :
  read_chunks fuel n [] o = o.
Proof. destruct fuel; simpl; [|rewrite firstn_nil]; reflexivity. Qed.

(** Whatever the chunk size, the loop feeds the whole content, in order. *)
Lemma read_chunks_update (fuel : nat) :
  forall (n : nat) (rest : list byte) (o : Sha256.t),
    0 < n -> length rest < fuel -> rest <> [] ->
    read_chunks fuel n rest o = Sha256.update o rest.
Proof.
  induction fuel as [|fuel IH]; intros n rest o Hn Hlen Hne; [lia|].
  simpl. pose proof (firstn_nonempty n rest Hn Hne) as Hchunk.
  destruct (firstn n rest) as [|b chunk] eqn:Hc; [congruence|].
  rewrite <- Hc. clear Hchunk.
  destruct (skipn n rest) as [|b' rest'] eqn:Hs.
  - rewrite read_chunks_nil.
    rewrite <- (firstn_skipn n rest) at 2. rewrite Hs, app_nil_r. reflexivity.
  - rewrite <- Hs. rewrite IH.
    + rewrite Sha256Facts.update_app, firstn_skipn. reflexivity.
    + exact Hn.
    + rewrite length_skipn. destruct rest; [congruence|]. simpl in *. lia.
    + rewrite Hs. discriminate.
Qed.

Lemma hash_bytes_oneshot (n : nat) (content : list byte) :
  0 < n ->
  hash_bytes n content
  = Sha256.hexdigest (Sha256.update Sha256.new content).
Proof.
  intros Hn. unfold hash_bytes. destruct content as [|b content].
  - rewrite read_chunks_nil. reflexivity.
  - rewrite read_chunks_update; [reflexivity|exact Hn|lia|discriminate].
Qed.


(** ** Digests collide: a counting argument *)

Module Counting.

Local Open Scope Z_scope.






End Counting.

(** ** Reasoning about computations *)

Lemma bind_ok {S A B} (m : M S A) (k : A -> M S B) (s s1 : S) (a : A) :
  m s = (Ok a, s1) -> (m ≫= k) s = k a s1.
Proof. intros H. unfold mbind, M_bind. rewrite H. reflexivity. Qed.

Lemma bind_raise {S A B} (m : M S A) (k : A -> M S B) (s s1 : S) (e : exn) :
  m s = (Raise e, s1) -> (m ≫= k) s = (Raise e, s1).
Proof. intros H. unfold mbind, M_bind. rewrite H. reflexivity. Qed.

Lemma bind_inv {S A B} (m : M S A) (k : A -> M S B) (s s2 : S) (r : res B) :
  (m ≫= k) s = (r, s2) ->
  (exists a s1, m s = (Ok a, s1) /\ k a s1 = (r, s2))
  \/ (exists e, m s = (Raise e, s2) /\ r = Raise e).
Proof.
  unfold mbind, M_bind. destruct (m s) as [[a|e] s1]; intros H.
  - left. eauto.
  - right. exists e. inversion H; subst. auto.
Qed.

(** ** Attribute locking *)

Lemma base_setattr_ok (key : string) (v : value) (o o' : obj) :
  base_setattr key v o = (Ok tt, o') -> o' = object_setattr o key v.
Proof.
  unfold base_setattr. destruct (_ && _); intros H; inversion H; reflexivity.
Qed.

Lemma hasattr_spec (o : obj) (key : string) :
  py_hasattr o key = false
  <-> inst_dict o !! key = None /\ class_ns o !! key = None.
Proof.
  unfold py_hasattr, py_getattr.
  destruct (inst_dict o !! key), (class_ns o !! key); intuition congruence.
Qed.

Lemma getattr_object_setattr (o : obj) (key : string) (v : value) :
  py_getattr (object_setattr o key v) key = Some v.
Proof. unfold py_getattr, object_setattr; simpl. by rewrite lookup_insert_eq. Qed.

(** What [__init__] leaves behind: the class is untouched and the instance
    dictionary has gained exactly the assigned names. *)
Lemma run_init_ok (body : list (string * value)) :
  forall o o' : obj,
    run_init body o = (Ok tt, o') ->
    class_name o' = class_name o /\ class_ns o' = class_ns o /\
    forall k : string,
      is_Some (inst_dict o' !! k)
      <-> is_Some (inst_dict o !! k) \/ k ∈ map fst body.
Proof.
  induction body as [|[k0 v0] body IH]; intros o o' H.
  - inversion H; subst. split; [done|split; [done|]]. intros k. split.
    + intros; by left.
    + intros [?|Hin]; [done|]. simpl in Hin. by apply elem_of_nil in Hin.
  - simpl in H. apply bind_inv in H as [(u & o1 & H1 & H2)|(e & _ & He)];
      [|discriminate].
    destruct u. apply base_setattr_ok in H1. subst o1.
    apply IH in H2 as (Hn & Hc & Hd). simpl in Hn, Hc.
    split; [done|split; [done|]]. intros k. specialize (Hd k). split.
    + intros Hk. apply Hd in Hk as [Hk|Hk].
      * simpl in Hk. destruct (decide (k0 = k)) as [->|Hne].
        -- right. simpl. apply elem_of_cons. by left.
        -- rewrite lookup_insert_ne in Hk by done. by left.
      * right. simpl. apply elem_of_cons. by right.
    + intros [Hk|Hk]; apply Hd.
      * left. simpl. destruct (decide (k0 = k)) as [->|Hne].
        -- rewrite lookup_insert_eq. eauto.
        -- by rewrite lookup_insert_ne.
      * simpl in Hk. apply elem_of_cons in Hk as [->|Hk].
        -- left. simpl. rewrite lookup_insert_eq. eauto.
        -- by right.
Qed.

(** Setting [_locked] never fails: either the instance is unlocked, or
    [_locked] is an attribute it has. *)
Lemma lock_step (o : obj) :
  base_setattr "_locked" (VBool true) o
  = (Ok tt, object_setattr o "_locked" (VBool true)).
Proof.
  unfold base_setattr, py_getattr_default, py_hasattr.
  destruct (py_getattr o "_locked") as [b|]; simpl.
  - by rewrite andb_false_r.
  - reflexivity.
Qed.

Lemma meta_call_ok (cls : pyclass) (inst : obj) :
  meta_call cls = Ok inst ->
  is_locked inst = true /\ class_ns inst = namespace cls /\
  class_name inst = cname cls /\
  forall k : string,
    is_Some (inst_dict inst !! k) <-> k = "_locked" \/ k ∈ map fst (init cls).
Proof.
  unfold meta_call. intros H.
  destruct (run_init (init cls) (Object (cname cls) (namespace cls) ∅))
    as [[[]|e] o1] eqn:Hinit.
  - rewrite (bind_ok _ _ _ _ _ Hinit) in H.
    rewrite (bind_ok _ _ _ _ _ (lock_step o1)) in H.
    simpl in H. inversion H; subst inst. clear H.
    apply run_init_ok in Hinit as (Hn & Hc & Hd). simpl in Hn, Hc.
    split; [|split; [done|split; [done|]]].
    { unfold is_locked, py_getattr_default. by rewrite getattr_object_setattr. }
    intros k. specialize (Hd k). split.
    + intros Hk. simpl in Hk. destruct (decide ("_locked" = k)) as [<-|Hne].
      * by left.
      * rewrite lookup_insert_ne in Hk by done. apply Hd in Hk as [Hk|Hk].
        -- simpl in Hk. rewrite lookup_empty in Hk. by destruct Hk.
        -- by right.
    + intros [->|Hk]; simpl.
      * rewrite lookup_insert_eq. eauto.
      * destruct (decide ("_locked" = k)) as [<-|Hne].
        -- rewrite lookup_insert_eq. eauto.
        -- rewrite lookup_insert_ne by done. apply Hd. by right.
  - rewrite (bind_raise _ _ _ _ _ Hinit) in H. discriminate.
Qed.

(** C3 (as stated) fails: [add_modules] is never assigned during the
    construction of a [base] instance, and yet assigning it on the locked
    instance succeeds, because the class provides that name. *)
Lemma C3_class_name_is_settable :
  meta_call base = Ok Demo.base0
  /\ ("add_modules" ∉ map fst (init base))
  /\ is_locked Demo.base0 = true
  /\ base_setattr "add_modules" (VInt 0) Demo.base0
     = (Ok tt, object_setattr Demo.base0 "add_modules" (VInt 0)).
Proof.
  split; [reflexivity|]. split; [|split; reflexivity].
  simpl. intros H. apply list_elem_of_singleton in H. discriminate.
Qed.

(** C3 (amended): on an instance returned by [LockAttributesMeta.__call__],
    assigning a name that was not set during construction raises
    [AttributeError] provided the class does not have the name either (and
    the name is not [_locked], which the metaclass sets); assigning a name
    that was set during construction succeeds for any value and stores
    it. *)
Theorem C3_lock_after_construction
  (cls : pyclass) (inst : obj) (name : string) (v : value) :
  meta_call cls = Ok inst ->
  (name ∉ map fst (init cls) -> name <> "_locked" ->
   namespace cls !! name = None ->
   base_setattr name v inst
   = (Raise (AttributeError
               ("Cannot add new attribute '" +:+ name
                +:+ "' to instances of " +:+ cname cls)), inst))
  /\ (name ∈ map fst (init cls) ->
      base_setattr name v inst = (Ok tt, object_setattr inst name v)
      /\ py_getattr (object_setattr inst name v) name = Some v).
Proof.
  intros Hcall. apply meta_call_ok in Hcall as (Hlocked & Hns & Hname & Hdom).
  unfold is_locked in Hlocked. split.
  - intros Hnot Hneq Hcls.
    assert (Hinst : inst_dict inst !! name = None).
    { destruct (inst_dict inst !! name) eqn:E; [|reflexivity].
      destruct (proj1 (Hdom name)) as [?|?]; [eauto|done|done]. }
    unfold base_setattr. rewrite Hlocked.
    replace (py_hasattr inst name) with false.
    + simpl. by rewrite Hname.
    + symmetry. apply hasattr_spec. by rewrite Hns.
  - intros Hin. split; [|apply getattr_object_setattr].
    destruct (proj2 (Hdom name)) as [w Hw]; [by right|].
    unfold base_setattr, py_hasattr, py_getattr. rewrite Hw.
    by rewrite andb_false_r.
Qed.

Lemma C3_lock_after_construction_witness :
  meta_call Demo.Host = Ok Demo.host0
  /\ base_setattr "y" (VInt 1) Demo.host0
     = (Raise (AttributeError
                 "Cannot add new attribute 'y' to instances of Host"),
        Demo.host0)
  /\ base_setattr "x" (VStr "one") Demo.host0
     = (Ok tt, object_setattr Demo.host0 "x" (VStr "one")).
Proof.
  split; [reflexivity|]. split.
  - apply (C3_lock_after_construction Demo.Host Demo.host0 "y" (VInt 1));
      [reflexivity| |discriminate|reflexivity].
    simpl. rewrite !elem_of_cons, elem_of_nil. intros [?|[?|[]]]; discriminate.
  - apply (C3_lock_after_construction Demo.Host Demo.host0 "x" (VStr "one"));
      [reflexivity|]. simpl. rewrite !elem_of_cons. auto.
Defined.



(** ** Module names *)






(** ** import_from_filepath *)

Section ImportFacts.

Variable interp : list byte -> list stmt.

Lemma run_body_eq (filename : string) (body : list stmt) :
  forall s : state,
    run_body filename body s
    = (match body_exn body with None => Ok tt | Some e => Raise e end,
       set_l (l s ++ registered body) s).
Proof.
  induction body as [|[f|e] body IH]; intros s; simpl.
  - rewrite app_nil_r. by destruct s.
  - unfold configuration, add_function, modify, mbind, M_bind, mret, M_ret.
    rewrite IH. simpl. by rewrite <- app_assoc.
  - rewrite app_nil_r. by destruct s.
Qed.

(** The loader, step by step: the import event, the reset of the
    registry, the loader chosen by suffix, the entry in [sys.modules],
    the execution of the file, and the final drain, which happens only
    when the execution returns. *)
Lemma import_from_filepath_eq (p : string) (s : state) :
  import_from_filepath interp p s
  = let s1 := State (disk s) [] (sys_modules s) (self s)
                    (trace s ++ [EvImport p]) in
    if supported p then
      let s2 := set_sys_modules (<[module_name_of p := p]> (sys_modules s)) s1 in
      match disk s !! p with
      | None => (Raise (FileNotFoundError p), s2)
      | Some c =>
          match body_exn (interp c) with
          | Some e => (Raise e, set_l (registered (interp c)) s2)
          | None => (Ok (registered (interp c)), s2)
          end
      end
    else (Raise (AttributeError "'NoneType' object has no attribute 'loader'"),
          s1).
Proof.
  unfold import_from_filepath, supported.
  destruct (spec_from_file_location (module_name_of p) p) as [[n o]|] eqn:Hspec.
  - assert (o = p) as ->.
    { unfold spec_from_file_location in Hspec.
      destruct (_ || _); [|discriminate]. by inversion Hspec. }
    destruct s as [d r m h t].
    cbv [emit modify mbind M_bind mret M_ret module_from_spec exec_module
         read_file gets set_l set_sys_modules disk l sys_modules self trace].
    destruct (d !! p) as [c|]; [|reflexivity].
    rewrite run_body_eq; simpl.
    destruct (body_exn (interp c)); reflexivity.
  - reflexivity.
Qed.

(** On a normal return the registry has been drained. *)
Lemma import_ok_registry_empty (p : string) (s s' : state) (fns : list cfun) :
  import_from_filepath interp p s = (Ok fns, s') -> l s' = [].
Proof.
  rewrite import_from_filepath_eq. simpl.
  destruct (supported p); [|discriminate].
  destruct (disk s !! p) as [c|]; [|discriminate].
  destruct (body_exn (interp c)); [discriminate|].
  intros H. by inversion H.
Qed.

(** Whatever is registered when a load starts, that load does not see
    it: what it returns comes from the loaded file alone. *)
Lemma import_ignores_leftovers (p : string) (s : state) (stale : list cfun) :
  fst (import_from_filepath interp p (set_l stale s))
  = fst (import_from_filepath interp p s).
Proof.
  rewrite !import_from_filepath_eq. simpl.
  destruct (supported p); [|reflexivity].
  destruct (disk s !! p) as [c|]; [|reflexivity].
  destruct (body_exn (interp c)); reflexivity.
Qed.

End ImportFacts.




(** C2 at the failing input: the file [broken.py] decorates [f] and then
    raises.  The load fails, and the registry still holds [f]: the final
    [l.clear()] is only reached when the execution returns. *)
Theorem C2_registry_left_dirty :
  let run := import_from_filepath Demo.interp "/etc/app/broken.py" Demo.s0 in
  fst run = Raise (UserError "RuntimeError")
  /\ map fn_name (l (snd run)) = ["f"]
  /\ l (snd run) <> [].
Proof.
  split; [vm_compute; reflexivity|]. split; [vm_compute; reflexivity|].
  intros H. apply (f_equal (map fn_name)) in H. vm_compute in H. discriminate.
Qed.

(** ** Traces *)

Lemma called_app (a b : list event) : called (a ++ b) = called a ++ called b.
Proof. apply omap_app. Qed.
Lemma hashed_app (a b : list event) : hashed (a ++ b) = hashed a ++ hashed b.
Proof. apply omap_app. Qed.
Lemma imported_app (a b : list event) :
  imported (a ++ b) = imported a ++ imported b.
Proof. apply omap_app. Qed.

(** ** The applied-files list *)

Lemma hash_seen_pure (d : string) (o : obj) : snd (hash_seen d o) = o.
Proof. unfold hash_seen. by destruct (py_getattr o "__files__"). Qed.

Lemma recorded_iff (d : string) (o : obj) :
  recorded d o
  <-> exists files, py_getattr o "__files__" = Some files
                    /\ py_in d files = Ok true.
Proof.
  unfold recorded, hash_seen. destruct (py_getattr o "__files__") as [files|].
  - simpl. split; [eauto|]. intros (files' & Hf & Hin). congruence.
  - simpl. split; [discriminate|]. intros (files' & Hf & _). discriminate.
Qed.

Lemma is_str_refl (h : string) : is_str h (VStr h) = true.
Proof. simpl. apply String.eqb_refl. Qed.

Lemma append_hash_raise (h : string) (o o' : obj) (e : exn) :
  append_hash h o = (Raise e, o') -> o' = o.
Proof.
  unfold append_hash. destruct (py_getattr o "__files__") as [[]|];
    try (intros H; by inversion H).
  destruct (inst_dict o !! "__files__"); discriminate.
Qed.

(** A successful append records the digest, forgets none, and touches no
    other attribute. *)
Lemma append_hash_ok (h : string) (o o' : obj) :
  append_hash h o = (Ok tt, o') ->
  recorded h o'
  /\ (forall d, recorded d o -> recorded d o')
  /\ (forall k, k <> "__files__" -> py_getattr o' k = py_getattr o k).
Proof.
  unfold append_hash. destruct (py_getattr o "__files__") as [files|] eqn:Hget;
    [|discriminate].
  destruct files as [| | | |xs|]; try discriminate.
  assert (Hnew : forall o1,
             py_getattr o1 "__files__" = Some (VList (xs ++ [VStr h])) ->
             recorded h o1 /\ (forall d, recorded d o -> recorded d o1)).
  { intros o1 Ho1. split.
    - apply recorded_iff. eexists. split; [exact Ho1|]. simpl.
      rewrite existsb_app. simpl. by rewrite String.eqb_refl, orb_true_r.
    - intros d Hd. apply recorded_iff in Hd as (files & Hf & Hin).
      rewrite Hget in Hf. inversion Hf; subst files. simpl in Hin.
      apply recorded_iff. eexists. split; [exact Ho1|]. simpl.
      rewrite existsb_app. inversion Hin as [Hex]. by rewrite Hex. }
  unfold py_getattr in *.
  destruct (inst_dict o !! "__files__") as [w|] eqn:Hinst; intros H;
    inversion H; subst o'; clear H.
  - destruct (Hnew (object_setattr o "__files__" (VList (xs ++ [VStr h]))))
      as [Ha Hb]; [simpl; by rewrite lookup_insert_eq|].
    split; [exact Ha|split; [exact Hb|]].
    intros k Hk. simpl. by rewrite lookup_insert_ne.
  - destruct (Hnew (Object (class_name o)
                      (<["__files__" := VList (xs ++ [VStr h])]> (class_ns o))
                      (inst_dict o)))
      as [Ha Hb]; [simpl; by rewrite Hinst, lookup_insert_eq|].
    split; [exact Ha|split; [exact Hb|]].
    intros k Hk. simpl. by rewrite lookup_insert_ne.
Qed.

(** ** The fs dict *)

Lemma dict_set_fresh {V} (d : list (string * V)) (k : string) (v : V) :
  k ∉ map fst d -> dict_set d k v = d ++ [(k, v)].
Proof.
  induction d as [|[k' v'] d IH]; simpl; intros Hk; [reflexivity|].
  apply not_elem_of_cons in Hk as [Hne Hk].
  destruct (String.eqb_spec k' k); [congruence|]. by rewrite IH.
Qed.

Lemma dict_get_app_fresh {V} (pre d : list (string * V)) (k : string) :
  k ∉ map fst pre -> dict_get (pre ++ d) k = dict_get d k.
Proof.
  induction pre as [|[k' v'] pre IH]; simpl; intros Hk; [reflexivity|].
  apply not_elem_of_cons in Hk as [Hne Hk].
  destruct (String.eqb_spec k' k); [congruence|]. by apply IH.
Qed.

(** ** add_modules: the load phase *)

Section LoadPhase.

Variable interp : list byte -> list stmt.
Variable directory_path : string.

Local Abbreviation load_one := (load_one interp directory_path).
Local Abbreviation load_loop := (load_loop interp directory_path).
Local Abbreviation join := (path_join directory_path).

(** One iteration, case by case. *)
Lemma load_one_eq (fs : list (string * list cfun)) (f : string) (s : state) :
  load_one fs f s
  = let p := join f in
    let s1 := add_trace [EvHash p] s in
    match disk s !! p with
    | None => (Raise (FileNotFoundError p), s1)
    | Some c =>
        let h := file_digest c in
        match fst (hash_seen h (self s)) with
        | Raise e => (Raise e, s1)
        | Ok true => (Ok fs, s1)
        | Ok false =>
            match import_from_filepath interp p s1 with
            | (Raise e, s2) => (Raise e, s2)
            | (Ok fns, s2) =>
                match append_hash h (self s2) with
                | (Raise e, o) => (Raise e, set_self o s2)
                | (Ok _, o) => (Ok (dict_set fs p fns), set_self o s2)
                end
            end
        end
    end.
Proof.
  unfold load_one, calculate_hash. destruct s as [d r m o t].
  cbv [emit modify mbind M_bind mret M_ret read_file on_self add_trace
       set_self disk l sys_modules self trace].
  destruct (d !! join f) as [c|]; [|reflexivity].
  pose proof (hash_seen_pure (file_digest c) o) as Hpure.
  destruct (hash_seen (file_digest c) o) as [[[|]|e] o1];
    simpl in Hpure; subst o1; simpl; try reflexivity.
  destruct (import_from_filepath interp (join f) _) as [[fns|e] s2];
    [|reflexivity].
  destruct s2 as [d2 r2 m2 o2 t2].
  destruct (append_hash (file_digest c) o2) as [[[]|e] o3]; reflexivity.
Qed.

(** What one iteration can and cannot do. *)
Lemma load_one_spec (fs : list (string * list cfun)) (f : string)
  (s s' : state) (r : res (list (string * list cfun))) :
  load_one fs f s = (r, s') ->
  disk s' = disk s
  /\ called (trace s') = called (trace s)
  /\ hashed (trace s') = hashed (trace s) ++ [join f]
  /\ (forall d, recorded d (self s) -> recorded d (self s'))
  /\ (forall k, k <> "__files__" ->
                py_getattr (self s') k = py_getattr (self s) k)
  /\ (forall fs', r = Ok fs' ->
        exists c,
          disk s !! join f = Some c
          /\ recorded (file_digest c) (self s')
          /\ ((fs' = fs
               /\ recorded (file_digest c) (self s)
               /\ imported (trace s') = imported (trace s))
              \/ (fs' = dict_set fs (join f) (registered (interp c))
                  /\ ~ recorded (file_digest c) (self s)
                  /\ body_exn (interp c) = None
                  /\ imported (trace s') = imported (trace s) ++ [join f]))).
Proof.
  rewrite load_one_eq. cbv zeta.
  assert (Hframe : forall tr, called (trace s ++ tr) = called (trace s)
                              -> hashed (trace s ++ tr) = hashed (trace s) ++ [join f]
                              -> True) by done.
  destruct (disk s !! join f) as [c|] eqn:Hdisk.
  2:{ intros H; inversion H; subst; simpl.
      rewrite called_app, hashed_app; simpl. rewrite app_nil_r.
      repeat split; auto. discriminate. }
  destruct (fst (hash_seen (file_digest c) (self s))) as [[|]|e] eqn:Hseen.
  - (* already applied: skipped *)
    intros H; inversion H; subst; simpl.
    rewrite called_app, hashed_app, imported_app; simpl. rewrite !app_nil_r.
    repeat split; auto.
    intros fs' Hfs; inversion Hfs; subst fs'. exists c. repeat split; auto.
  - (* not applied yet: imported *)
    rewrite import_from_filepath_eq. simpl. rewrite Hdisk.
    destruct (supported (join f)).
    2:{ intros H; inversion H; subst; simpl.
        rewrite !called_app, !hashed_app; simpl. rewrite !app_nil_r.
        repeat split; auto. discriminate. }
    destruct (body_exn (interp c)) as [e|] eqn:Hexn.
    { intros H; inversion H; subst; simpl.
      rewrite !called_app, !hashed_app; simpl. rewrite !app_nil_r.
      repeat split; auto. discriminate. }
    simpl.
    destruct (append_hash (file_digest c) (self s)) as [[[]|e] o2]
      eqn:Happ.
    + apply append_hash_ok in Happ as (Hrec & Hmono & Hother).
      intros H; inversion H; subst; simpl.
      rewrite !called_app, !hashed_app, !imported_app; simpl.
      rewrite !app_nil_r.
      repeat split; auto.
      intros fs' Hfs; inversion Hfs; subst fs'. exists c.
      split; [done|]. split; [done|]. right.
      repeat split; auto. unfold recorded. rewrite Hseen. discriminate.
    + apply append_hash_raise in Happ. subst o2.
      intros H; inversion H; subst; simpl.
      rewrite !called_app, !hashed_app; simpl. rewrite !app_nil_r.
      repeat split; auto. discriminate.
  - intros H; inversion H; subst; simpl.
    rewrite called_app, hashed_app; simpl. rewrite app_nil_r.
    repeat split; auto. discriminate.
Qed.

Lemma load_loop_app (files1 files2 : list string) :
  forall (fs : list (string * list cfun)) (s : state),
    load_loop (files1 ++ files2) fs s
    = (load_loop files1 fs ≫= load_loop files2) s.
Proof.
  induction files1 as [|f files1 IH]; intros fs s; [reflexivity|].
  simpl. unfold mbind, M_bind in *.
  destruct (load_one fs f s) as [[fs1|e] s1]; [apply IH|reflexivity].
Qed.

Lemma loaded_ok_mono (s s' : state) (fs : list (string * list cfun)) :
  loaded_ok interp s fs ->
  disk s' = disk s ->
  (forall d, recorded d (self s) -> recorded d (self s')) ->
  loaded_ok interp s' fs.
Proof.
  intros [Hnd Hall] Hdisk Hmono. split; [exact Hnd|].
  eapply Forall_impl; [exact Hall|].
  intros entry (c & Hc & Hrec & Hfns & Hexn). exists c.
  rewrite Hdisk. auto.
Qed.

(** A file that is about to be imported is not a key of [fs] yet. *)
Lemma loaded_ok_fresh (s : state) (fs : list (string * list cfun))
  (p : string) (c : list byte) :
  loaded_ok interp s fs ->
  disk s !! p = Some c ->
  ~ recorded (file_digest c) (self s) ->
  ~ In p (map fst fs).
Proof.
  intros [_ Hall] Hdisk Hnot Hin.
  apply in_map_iff in Hin as (entry & <- & Hin).
  rewrite Forall_forall in Hall.
  destruct (Hall entry) as (c' & Hc' & Hrec & _).
  - by apply list_elem_of_In.
  - congruence.
Qed.

(** One iteration keeps the dict in shape and extends it by at most the
    file it has just imported. *)
Lemma load_one_loaded_ok (fs fs1 : list (string * list cfun)) (f : string)
  (s s1 : state) :
  load_one fs f s = (Ok fs1, s1) ->
  loaded_ok interp s fs ->
  loaded_ok interp s1 fs1
  /\ exists new,
      fs1 = fs ++ new
      /\ map fst new `sublist_of` [join f]
      /\ imported (trace s1) = imported (trace s) ++ map fst new.
Proof.
  intros Hone Hok.
  destruct (load_one_spec _ _ _ _ _ Hone)
    as (Hdisk & _ & _ & Hmono & _ & Hfs).
  destruct (Hfs fs1 eq_refl) as (c & Hc & Hrec & Hcase).
  pose proof (loaded_ok_mono s s1 fs Hok Hdisk Hmono) as Hok1.
  destruct Hcase as [(-> & _ & Himp)|(-> & Hnot & Hexn & Himp)].
  - split; [exact Hok1|]. exists []. rewrite app_nil_r. simpl.
    rewrite app_nil_r. split; [done|]. split; [|done].
    apply sublist_nil_l.
  - pose proof (loaded_ok_fresh s fs (join f) c Hok Hc Hnot) as Hfresh.
    rewrite dict_set_fresh by (by rewrite list_elem_of_In).
    split.
    + destruct Hok1 as [Hnd Hall]. split.
      * rewrite map_app. apply NoDup_app. split; [exact Hnd|]. split.
        -- intros x Hx Hx'. simpl in Hx'.
           apply list_elem_of_singleton in Hx'. subst x.
           by apply list_elem_of_In in Hx.
        -- simpl. apply NoDup_singleton.
      * apply Forall_app. split; [exact Hall|].
        apply Forall_singleton. exists c. simpl. rewrite Hdisk. auto.
    + eexists. split; [reflexivity|]. simpl. split; [done|exact Himp].
Qed.

(** The whole loop. *)
Lemma load_loop_spec (files : list string) :
  forall (fs : list (string * list cfun)) (s s' : state)
         (r : res (list (string * list cfun))),
    load_loop files fs s = (r, s') ->
    disk s' = disk s
    /\ called (trace s') = called (trace s)
    /\ (forall d, recorded d (self s) -> recorded d (self s'))
    /\ (forall k, k <> "__files__" ->
                  py_getattr (self s') k = py_getattr (self s) k)
    /\ (forall fs', r = Ok fs' ->
          hashed (trace s') = hashed (trace s) ++ map join files
          /\ Forall (fun f => exists c,
                         disk s !! join f = Some c
                         /\ recorded (file_digest c) (self s')) files
          /\ (loaded_ok interp s fs ->
              loaded_ok interp s' fs'
              /\ exists new,
                  fs' = fs ++ new
                  /\ map fst new `sublist_of` map join files
                  /\ imported (trace s') = imported (trace s) ++ map fst new)).
Proof.
  induction files as [|f files IH]; intros fs s s' r Hloop.
  - inversion Hloop; subst. do 4 (split; [done|]).
    intros fs' Hfs. inversion Hfs; subst fs'.
    split; [simpl; by rewrite app_nil_r|]. split; [constructor|].
    intros Hok. split; [done|]. exists []. simpl. by rewrite !app_nil_r.
  - simpl in Hloop.
    apply bind_inv in Hloop as [(fs1 & s1 & Hone & Hrest)|(e & Hone & ->)].
    + pose proof (load_one_spec _ _ _ _ _ Hone)
        as (Hdisk1 & Hcall1 & Hhash1 & Hmono1 & Hattr1 & Hfs1).
      destruct (Hfs1 fs1 eq_refl) as (c & Hc & Hrec & _).
      destruct (IH _ _ _ _ Hrest)
        as (Hdisk2 & Hcall2 & Hmono2 & Hattr2 & Hok2).
      split; [congruence|]. split; [congruence|].
      split; [auto|]. split; [intros k Hk; rewrite Hattr2, Hattr1; auto|].
      intros fs' ->. destruct (Hok2 fs' eq_refl) as (Hhash2 & Hall2 & Hdict2).
      split; [|split].
      * rewrite Hhash2, Hhash1. simpl. by rewrite <- app_assoc.
      * apply Forall_cons. split; [eauto|].
        eapply Forall_impl; [exact Hall2|].
        intros f' (c' & Hc' & Hrec'). exists c'. by rewrite <- Hdisk1.
      * intros Hok.
        destruct (load_one_loaded_ok _ _ _ _ _ Hone Hok)
          as (Hok1 & new1 & -> & Hsub1 & Himp1).
        destruct (Hdict2 Hok1) as (Hok' & new2 & -> & Hsub2 & Himp2).
        split; [exact Hok'|]. exists (new1 ++ new2).
        rewrite <- app_assoc. split; [done|].
        rewrite map_app. split.
        -- change (map fst new1 ++ map fst new2
                   `sublist_of` [join f] ++ map join files).
           apply sublist_app; [exact Hsub1|exact Hsub2].
        -- rewrite Himp2, Himp1. by rewrite <- app_assoc.
    + pose proof (load_one_spec _ _ _ _ _ Hone)
        as (Hdisk1 & Hcall1 & Hhash1 & Hmono1 & Hattr1 & _).
      repeat split; auto; discriminate.
Qed.

End LoadPhase.

(** ** add_modules: the apply phase *)

Lemma call_eq (fn : cfun) (s : state) :
  call fn s
  = (fst (fn_body fn (self s)),
     set_self (snd (fn_body fn (self s))) (add_trace [EvCall (fn_name fn)] s)).
Proof.
  unfold call, emit, modify, on_self, mbind, M_bind, add_trace. simpl.
  by destruct (fn_body fn (self s)) as [[[]|e] o].
Qed.

Lemma call_all_app (fns1 fns2 : list cfun) :
  forall s : state,
    call_all (fns1 ++ fns2) s = (call_all fns1;; call_all fns2) s.
Proof.
  induction fns1 as [|fn fns1 IH]; intros s; [reflexivity|].
  simpl. unfold mbind, M_bind in *.
  destruct (call fn s) as [[[]|e] s1]; [apply IH|reflexivity].
Qed.

(** With no key twice, iterating over the keys and looking each one up
    runs the stored lists one after the other. *)
Lemma apply_loop_eq (suffix : list (string * list cfun)) :
  forall (pre : list (string * list cfun)) (s : state),
    NoDup (map fst (pre ++ suffix)) ->
    apply_loop (map fst suffix) (pre ++ suffix) s
    = call_all (concat (map snd suffix)) s.
Proof.
  induction suffix as [|[k fns] suffix IH]; intros pre s Hnd; [reflexivity|].
  simpl. rewrite dict_get_app_fresh.
  - simpl. rewrite String.eqb_refl, call_all_app.
    unfold mbind, M_bind.
    destruct (call_all fns s) as [[[]|e] s1]; [|reflexivity].
    rewrite <- (IH (pre ++ [(k, fns)]) s1).
    + by rewrite <- app_assoc.
    + by rewrite <- app_assoc.
  - rewrite map_app in Hnd. apply NoDup_app in Hnd as (_ & Hdisj & _).
    intros Hk. apply (Hdisj k Hk). simpl. apply elem_of_cons. by left.
Qed.

(** What running a list of configuration functions can and cannot do. *)
Lemma call_all_spec (fns : list cfun) :
  forall (s s' : state) (r : res unit),
    call_all fns s = (r, s') ->
    disk s' = disk s
    /\ l s' = l s
    /\ sys_modules s' = sys_modules s
    /\ hashed (trace s') = hashed (trace s)
    /\ imported (trace s') = imported (trace s)
    /\ (Forall digest_stable fns ->
        forall d, recorded d (self s) -> recorded d (self s'))
    /\ (r = Ok tt ->
        called (trace s') = called (trace s) ++ map fn_name fns
        /\ run_fns fns (self s) = (Ok tt, self s')).
Proof.
  induction fns as [|fn fns IH]; intros s s' r Hrun.
  - inversion Hrun; subst. do 5 (split; [done|]). split; [done|].
    intros _. simpl. by rewrite app_nil_r.
  - simpl in Hrun.
    apply bind_inv in Hrun as [([] & s1 & Hcall & Hrest)|(e & Hcall & ->)];
      rewrite call_eq in Hcall; injection Hcall as Hr Hs1.
    + destruct (IH _ _ _ Hrest) as (Hd & Hl & Hm & Hh & Hi & Hst & Hok).
      subst s1. simpl in *.
      rewrite hashed_app in Hh. rewrite imported_app in Hi. simpl in Hh, Hi.
      rewrite app_nil_r in Hh, Hi.
      do 5 (split; [done|]). split.
      * intros Hall d Hd0. apply Forall_cons in Hall as [Hfn Hall].
        apply Hst; [exact Hall|]. by apply Hfn.
      * intros ->. destruct (Hok eq_refl) as [Hc Hrun'].
        rewrite called_app in Hc. simpl in Hc. split.
        -- rewrite Hc. by rewrite <- app_assoc.
        -- unfold mbind, M_bind.
           destruct (fn_body fn (self s)) as [[[]|e] o]; simpl in *;
             [exact Hrun'|discriminate].
    + subst s'. simpl. rewrite hashed_app, imported_app. simpl.
      rewrite !app_nil_r.
      do 5 (split; [done|]). split; [|discriminate].
      intros Hall d Hd0. apply Forall_cons in Hall as [Hfn _]. by apply Hfn.
Qed.


Lemma add_trace_add_trace (a b : list event) (s : state) :
  add_trace b (add_trace a s) = add_trace (a ++ b) s.
Proof. unfold add_trace. simpl. by rewrite <- app_assoc. Qed.

Lemma add_trace_nil (s : state) : add_trace [] s = s.
Proof. unfold add_trace. rewrite app_nil_r. by destruct s. Qed.

Section Phases.

Variable interp : list byte -> list stmt.
Variable directory_path : string.

Local Abbreviation join := (path_join directory_path).

(** Files whose digests are all recorded are all skipped: the loop only
    computes digests. *)
Lemma load_loop_skip (files : list string) :
  forall (fs : list (string * list cfun)) (s : state),
    Forall (fun f => exists c,
                disk s !! join f = Some c
                /\ recorded (file_digest c) (self s)) files ->
    load_loop interp directory_path files fs s
    = (Ok fs, add_trace (map (fun f => EvHash (join f)) files) s).
Proof.
  induction files as [|f files IH]; intros fs s Hall.
  - simpl. by rewrite add_trace_nil.
  - apply Forall_cons in Hall as [(c & Hc & Hrec) Hall].
    simpl. unfold mbind, M_bind. rewrite load_one_eq. simpl.
    rewrite Hc. unfold recorded in Hrec. rewrite Hrec.
    rewrite IH; [by rewrite add_trace_add_trace|].
    eapply Forall_impl; [exact Hall|]. intros f' Hf'. exact Hf'.
Qed.

(** [add_modules] is the load loop followed by the collected functions
    in dict order. *)
Lemma add_modules_eq (files : list string) (s s1 : state)
  (fs : list (string * list cfun)) :
  load_loop interp directory_path files [] s = (Ok fs, s1) ->
  add_modules interp directory_path files s
  = call_all (concat (map snd fs)) s1
  /\ loaded_ok interp s1 fs.
Proof.
  intros Hload. unfold add_modules. rewrite (bind_ok _ _ _ _ _ Hload).
  destruct (load_loop_spec interp directory_path files _ _ _ _ Hload)
    as (_ & _ & _ & _ & Hok).
  destruct (Hok fs eq_refl) as (_ & _ & Hdict).
  destruct Hdict as [Hok1 _].
  { split; [constructor|constructor]. }
  split; [|exact Hok1].
  apply (apply_loop_eq fs []). simpl. apply Hok1.
Qed.

(** The functions found in [fs] are functions of the given files. *)
Lemma loaded_functions_stable (files : list string) (s s1 : state)
  (fs : list (string * list cfun)) :
  load_loop interp directory_path files [] s = (Ok fs, s1) ->
  (forall f c, f ∈ files -> disk s !! join f = Some c ->
               Forall digest_stable (registered (interp c))) ->
  Forall digest_stable (concat (map snd fs)).
Proof.
  intros Hload Hstable.
  destruct (load_loop_spec interp directory_path files _ _ _ _ Hload)
    as (Hdisk & _ & _ & _ & Hok).
  destruct (Hok fs eq_refl) as (_ & _ & Hdict).
  destruct Hdict as ((_ & Hall) & new & Hnew & Hsub & _).
  { split; constructor. }
  simpl in Hnew. subst new.
  apply Forall_concat, Forall_forall. intros fns Hfns.
  apply list_elem_of_In, in_map_iff in Hfns as (entry & <- & Hentry).
  apply list_elem_of_In in Hentry.
  rewrite Forall_forall in Hall.
  destruct (Hall entry Hentry) as (c & Hc & _ & -> & _).
  assert (Hkey : fst entry ∈ map join files).
  { eapply elem_of_sublist; [|exact Hsub].
    apply list_elem_of_In, in_map. by apply list_elem_of_In. }
  apply list_elem_of_In, in_map_iff in Hkey as (f & Hf & Hin).
  apply (Hstable f c); [by apply list_elem_of_In|].
  rewrite Hf, <- Hdisk. exact Hc.
Qed.

End Phases.

Section Rerun.

Variable interp : list byte -> list stmt.
Variable directory_path : string.

Local Abbreviation join := (path_join directory_path).


End Rerun.

(** ** The demo functions leave the applied-files list alone *)

Lemma recorded_same_files (d : string) (o o' : obj) :
  py_getattr o' "__files__" = py_getattr o "__files__" ->
  recorded d o -> recorded d o'.
Proof. intros H. rewrite !recorded_iff. by rewrite H. Qed.

Lemma base_setattr_stable (k : string) (v : value) (o : obj) (d : string) :
  k <> "__files__" ->
  recorded d o -> recorded d (snd (base_setattr k v o)).
Proof.
  intros Hk. apply recorded_same_files. unfold base_setattr.
  destruct (_ && _); simpl; [reflexivity|].
  unfold py_getattr; simpl. by rewrite lookup_insert_ne.
Qed.

Lemma demo_functions_stable (c : list byte) :
  Forall digest_stable (registered (Demo.interp c)).
Proof.
  assert (Hf : digest_stable Demo.f).
  { intros o d Hd. simpl. unfold Demo.incr_x.
    destruct (py_getattr o "x") as [[]|]; simpl; try exact Hd.
    by apply base_setattr_stable. }
  assert (Hg1 : digest_stable Demo.g1).
  { intros o d Hd. simpl. by apply base_setattr_stable. }
  assert (Hg2 : digest_stable Demo.g2).
  { intros o d Hd. simpl. unfold Demo.double_x.
    destruct (py_getattr o "x") as [[]|]; simpl; try exact Hd.
    by apply base_setattr_stable. }
  assert (Hboom : digest_stable Demo.boom).
  { intros o d Hd. exact Hd. }
  unfold Demo.interp.
  repeat (destruct (String.eqb _ _); [simpl; repeat constructor; assumption|]).
  constructor.
Qed.

(** ** The claims about add_modules *)

(** C6: applying a single missing file raises [IOError] (a
    [FileNotFoundError], from [calculate_hash]); nothing but the attempt to
    hash has happened: the host, and with it its applied-files list, the
    registry and [sys.modules] are as before, nothing was imported and no
    function was called. *)
Theorem C6_missing_file_raises_IOError
  (interp : list byte -> list stmt) (directory_path p : string) (s : state) :
  disk s !! path_join directory_path p = None ->
  let path := path_join directory_path p in
  let run := add_modules interp directory_path [p] s in
  run = (Raise (FileNotFoundError path), add_trace [EvHash path] s)
  /\ is_IOError (FileNotFoundError path) = true
  /\ self (snd run) = self s
  /\ py_getattr (self (snd run)) "__files__" = py_getattr (self s) "__files__"
  /\ imported (trace (snd run)) = imported (trace s)
  /\ called (trace (snd run)) = called (trace s).
Proof.
  intros Hmissing path run.
  assert (Hrun : run = (Raise (FileNotFoundError path), add_trace [EvHash path] s)).
  { unfold run, add_modules. simpl. unfold mbind at 1, M_bind at 1.
    unfold mbind at 1, M_bind at 1. rewrite load_one_eq. cbv zeta.
    fold path. unfold path at 1. by rewrite Hmissing. }
  rewrite Hrun. simpl. rewrite imported_app, called_app. simpl.
  by rewrite !app_nil_r.
Qed.

Lemma C6_missing_file_raises_IOError_witness :
  disk Demo.s0 !! path_join "/etc/app" "missing.cfg" = None
  /\ add_modules Demo.interp "/etc/app" ["missing.cfg"] Demo.s0
     = (Raise (FileNotFoundError "/etc/app/missing.cfg"),
        add_trace [EvHash "/etc/app/missing.cfg"] Demo.s0).
Proof.
  split; [reflexivity|].
  apply (C6_missing_file_raises_IOError Demo.interp "/etc/app" "missing.cfg"
           Demo.s0). reflexivity.
Defined.





(** C1 (as stated) fails: [A.py] loads, then the load of [broken.py]
    fails.  The digest of [A.py] is recorded, but its function [f] was
    never called: [x] is still 0, where applying [A.py] alone makes it 1. *)
Lemma C1_earlier_functions_not_applied :
  let run := add_modules Demo.interp "/etc/app" ["A.py"; "broken.py"] Demo.s0 in
  let alone := add_modules Demo.interp "/etc/app" ["A.py"] Demo.s0 in
  fst run = Raise (UserError "RuntimeError")
  /\ py_getattr (self (snd run)) "__files__" = Some (VList [VStr Demo.hash_A])
  /\ imported (trace (snd run)) = ["/etc/app/A.py"; "/etc/app/broken.py"]
  /\ called (trace (snd run)) = []
  /\ py_getattr (self (snd run)) "x" = Some (VInt 0)
  /\ called (trace (snd alone)) = ["f"]
  /\ py_getattr (self (snd alone)) "x" = Some (VInt 1).
Proof.
  intros run alone.
  repeat (split; [vm_compute; reflexivity|]). vm_compute; reflexivity.
Qed.

(** C1 (amended): when the files before the N-th have been processed and
    the load of the N-th fails, the error propagates at once: the files
    before it have their digests recorded, but no configuration function
    has been called and no attribute of the host other than [__files__]
    has changed. *)
Theorem C1_load_failure_is_partial
  (interp : list byte -> list stmt) (directory_path : string)
  (before after : list string) (f : string) (s s1 s2 : state)
  (fs1 : list (string * list cfun)) (e : exn) :
  load_loop interp directory_path before [] s = (Ok fs1, s1) ->
  load_one interp directory_path fs1 f s1 = (Raise e, s2) ->
  add_modules interp directory_path (before ++ f :: after) s = (Raise e, s2)
  /\ Forall (fun f' => exists c,
                 disk s !! path_join directory_path f' = Some c
                 /\ recorded (file_digest c) (self s2)) before
  /\ called (trace s2) = called (trace s)
  /\ (forall k, k <> "__files__" ->
                py_getattr (self s2) k = py_getattr (self s) k).
Proof.
  intros Hbefore Hfail.
  destruct (load_loop_spec interp directory_path before _ _ _ _ Hbefore)
    as (_ & Hcall1 & _ & Hattr1 & Hok).
  destruct (Hok fs1 eq_refl) as (_ & Hall & _).
  destruct (load_one_spec _ _ _ _ _ _ _ Hfail)
    as (_ & Hcall2 & _ & Hmono2 & Hattr2 & _).
  split; [|split; [|split]].
  - unfold add_modules. apply bind_raise. rewrite load_loop_app.
    rewrite (bind_ok _ _ _ _ _ Hbefore). simpl. by apply bind_raise.
  - eapply Forall_impl; [exact Hall|]. intros f' (c & Hc & Hrec).
    exists c. auto.
  - congruence.
  - intros k Hk. rewrite Hattr2, Hattr1; auto.
Qed.

Lemma C1_load_failure_is_partial_witness :
  let s1 := snd (load_loop Demo.interp "/etc/app" ["A.py"] [] Demo.s0) in
  let s2 := snd (load_one Demo.interp "/etc/app" [("/etc/app/A.py", [Demo.f])]
                   "broken.py" s1) in
  add_modules Demo.interp "/etc/app" ["A.py"; "broken.py"; "B.py"] Demo.s0
  = (Raise (UserError "RuntimeError"), s2)
  /\ called (trace s2) = called (trace Demo.s0).
Proof.
  intros s1 s2.
  destruct (C1_load_failure_is_partial Demo.interp "/etc/app" ["A.py"] ["B.py"]
              "broken.py" Demo.s0 s1 s2 [("/etc/app/A.py", [Demo.f])]
              (UserError "RuntimeError")) as (H1 & _ & H2 & _).
  - vm_compute; reflexivity.
  - vm_compute; reflexivity.
  - split; [exact H1|exact H2].
Defined.


(** The order in an example: [B.py] defines [g1] then [g2], [A.py]
    defines [f]; they are called in that order, after both files have
    been loaded. *)
Example add_modules_B_then_A :
  (let run := add_modules Demo.interp "/etc/app" ["B.py"; "A.py"] Demo.s0 in
   (fst run, trace (snd run), py_getattr (self (snd run)) "x"))
  = (Ok tt,
     [EvHash "/etc/app/B.py"; EvImport "/etc/app/B.py";
      EvHash "/etc/app/A.py"; EvImport "/etc/app/A.py";
      EvCall "g1"; EvCall "g2"; EvCall "f"],
     Some (VInt 21)).
Proof. vm_compute. reflexivity. Qed.




(** * Part III: further properties of the code *)

(** ** import_from_filepath *)



(** X2: a load starts from an empty registry: whatever was registered
    before it (by a decorator used outside a load, or left by a failed
    load) is dropped, and neither the result nor the state after the load
    depends on it. *)
Theorem X2_import_drops_earlier_registrations
  (interp : list byte -> list stmt) (p : string) (s : state)
  (stale : list cfun) :
  import_from_filepath interp p (set_l stale s)
  = import_from_filepath interp p s.
Proof. rewrite !import_from_filepath_eq. reflexivity. Qed.



(** ** The decorator *)

(** X4: executing a module body registers the decorated functions at the
    end of the registry, in the order of their definition, and stops at
    the first statement that raises; the file name handed to
    [add_function] plays no role. *)
Theorem X4_decorators_register_in_order
  (filename filename' : string) (body : list stmt) (s : state) :
  run_body filename body s = run_body filename' body s
  /\ l (snd (run_body filename body s)) = l s ++ registered body
  /\ (forall before e after,
        body = map Decorated before ++ Raises e :: after ->
        fst (run_body filename body s) = Raise e
        /\ l (snd (run_body filename body s)) = l s ++ before)
  /\ (forall fns, body = map Decorated fns ->
        fst (run_body filename body s) = Ok tt
        /\ l (snd (run_body filename body s)) = l s ++ fns).
Proof.
  rewrite !run_body_eq. simpl. split; [reflexivity|]. split; [reflexivity|].
  split.
  - intros before e after ->.
    assert (H : body_exn (map Decorated before ++ Raises e :: after) = Some e
                /\ registered (map Decorated before ++ Raises e :: after)
                   = before).
    { induction before as [|fn before [IH1 IH2]]; simpl; [done|].
      by rewrite IH1, IH2. }
    destruct H as [-> ->]. done.
  - intros fns ->.
    assert (H : body_exn (map Decorated fns) = None
                /\ registered (map Decorated fns) = fns).
    { induction fns as [|fn fns [IH1 IH2]]; simpl; [done|].
      by rewrite IH1, IH2. }
    destruct H as [-> ->]. done.
Qed.

(** ** Construction and locking *)






(** X6: a class that defines [_locked] with a true value cannot be
    instantiated when its [__init__] starts by assigning a name that the
    class does not have: the lock is consulted during construction already,
    and the assignment raises [AttributeError]. *)
Theorem X6_class_level_lock_blocks_construction
  (cls : pyclass) (flag w : value) (k : string)
  (rest : list (string * value)) :
  namespace cls !! "_locked" = Some flag ->
  truthy flag = true ->
  init cls = (k, w) :: rest ->
  namespace cls !! k = None ->
  meta_call cls
  = Raise (AttributeError ("Cannot add new attribute '" +:+ k
                           +:+ "' to instances of " +:+ cname cls)).
Proof.
  intros Hflag Htrue Hinit Hk.
  set (o := Object (cname cls) (namespace cls) ∅).
  assert (Hfirst : base_setattr k w o
                   = (Raise (AttributeError
                               ("Cannot add new attribute '" +:+ k
                                +:+ "' to instances of " +:+ cname cls)), o)).
  { unfold base_setattr, py_getattr_default, py_hasattr, py_getattr. simpl.
    by rewrite !lookup_empty, Hflag, Htrue, Hk. }
  unfold meta_call. rewrite Hinit. fold o. simpl run_init.
  erewrite bind_raise; [reflexivity|].
  apply bind_raise. exact Hfirst.
Qed.

Lemma X6_class_level_lock_blocks_construction_witness :
  meta_call Demo.Frozen
  = Raise (AttributeError
             "Cannot add new attribute '__files__' to instances of Frozen").
Proof.
  apply (X6_class_level_lock_blocks_construction Demo.Frozen (VBool true)
           (VList []) "__files__" []); reflexivity.
Defined.




(** ** add_modules *)

(** X9: within one call no path is imported twice, however often it is
    listed: the imported paths are the keys of [fs], each once, and each is
    the resolved form of a given file. *)
Theorem X9_no_path_imported_twice
  (interp : list byte -> list stmt) (directory_path : string)
  (files : list string) (s s1 : state) (fs : list (string * list cfun)) :
  load_loop interp directory_path files [] s = (Ok fs, s1) ->
  imported (trace s1) = imported (trace s) ++ map fst fs
  /\ NoDup (map fst fs)
  /\ (forall p, p ∈ map fst fs -> p ∈ map (path_join directory_path) files).
Proof.
  intros Hload.
  destruct (load_loop_spec interp directory_path files _ _ _ _ Hload)
    as (_ & _ & _ & _ & Hok).
  destruct (Hok fs eq_refl) as (_ & _ & Hdict).
  destruct Hdict as ((Hnd & _) & new & Hnew & Hsub & Himp).
  { split; constructor. }
  simpl in Hnew. subst new. split; [exact Himp|]. split; [exact Hnd|].
  intros p Hp. eapply elem_of_sublist; [exact Hp|exact Hsub].
Qed.

Lemma X9_no_path_imported_twice_witness :
  let files := ["A.py"; "A.py"; "A.py"] in
  let s1 := snd (load_loop Demo.interp "/etc/app" files [] Demo.s0) in
  imported (trace s1) = imported (trace Demo.s0) ++ ["/etc/app/A.py"].
Proof.
  intros files s1.
  destruct (X9_no_path_imported_twice Demo.interp "/etc/app" files Demo.s0 s1
              [("/etc/app/A.py", [Demo.f])]) as (H & _).
  - vm_compute; reflexivity.
  - exact H.
Defined.

(** X10: files are told apart by content, not by path: once a file has
    been processed, a file with the same bytes at another path is skipped;
    only its digest is computed. *)
Theorem X10_same_content_at_another_path_is_skipped
  (interp : list byte -> list stmt) (directory_path p1 p2 : string)
  (s s1 : state) (fs fs1 : list (string * list cfun)) :
  load_one interp directory_path fs p1 s = (Ok fs1, s1) ->
  disk s !! path_join directory_path p2 = disk s !! path_join directory_path p1 ->
  load_one interp directory_path fs1 p2 s1
  = (Ok fs1, add_trace [EvHash (path_join directory_path p2)] s1).
Proof.
  intros Hone Hsame.
  destruct (load_one_spec _ _ _ _ _ _ _ Hone) as (Hdisk & _ & _ & _ & _ & Hfs).
  destruct (Hfs fs1 eq_refl) as (c & Hc & Hrec & _).
  rewrite load_one_eq. cbv zeta. rewrite Hdisk, Hsame, Hc.
  unfold recorded in Hrec. by rewrite Hrec.
Qed.

Lemma X10_same_content_at_another_path_is_skipped_witness :
  let s1 := snd (load_one Demo.interp "/etc/app" [] "B.py" Demo.s0) in
  load_one Demo.interp "/etc/app" [("/etc/app/B.py", [Demo.g1; Demo.g2])]
    "/srv/alt/A.py" s1
  = (Ok [("/etc/app/B.py", [Demo.g1; Demo.g2])],
     add_trace [EvHash "/srv/alt/A.py"] s1).
Proof.
  intros s1.
  apply (X10_same_content_at_another_path_is_skipped Demo.interp "/etc/app"
           "B.py" "/srv/alt/A.py" Demo.s0 s1 []).
  - vm_compute; reflexivity.
  - vm_compute; reflexivity.
Defined.

(** X11: a host without [__files__] (a subclass whose [__init__] does not
    call [base.__init__]) cannot take files: the first readable file
    raises [AttributeError] at the membership test, after its digest was
    computed and before anything is imported. *)
Theorem X11_host_without_applied_list
  (interp : list byte -> list stmt) (directory_path p : string)
  (rest : list string) (c : list byte) (s : state) :
  disk s !! path_join directory_path p = Some c ->
  py_getattr (self s) "__files__" = None ->
  add_modules interp directory_path (p :: rest) s
  = (Raise (no_attribute (self s) "__files__"),
     add_trace [EvHash (path_join directory_path p)] s).
Proof.
  intros Hc Hnone. unfold add_modules. apply bind_raise. simpl.
  apply bind_raise. rewrite load_one_eq. cbv zeta. rewrite Hc.
  unfold hash_seen. by rewrite Hnone.
Qed.

Lemma X11_host_without_applied_list_witness :
  add_modules Demo.interp "/etc/app" ["A.py"] (set_self Demo.bare0 Demo.s0)
  = (Raise (AttributeError "'Bare' object has no attribute '__files__'"),
     add_trace [EvHash "/etc/app/A.py"] (set_self Demo.bare0 Demo.s0)).
Proof.
  apply (X11_host_without_applied_list Demo.interp "/etc/app" "A.py" []
           (bytes_of_string Demo.src_A) (set_self Demo.bare0 Demo.s0));
    reflexivity.
Defined.

(** X12: when a configuration function raises, the exception leaves the
    apply phase at once: the functions before it have run, the host is as
    the failing function left it, and no later function is called. *)
Theorem X12_failing_function_stops_the_rest
  (before after : list cfun) (fn : cfun) (s s1 : state) (e : exn) :
  call_all before s = (Ok tt, s1) ->
  fst (fn_body fn (self s1)) = Raise e ->
  let run := call_all (before ++ fn :: after) s in
  fst run = Raise e
  /\ called (trace (snd run))
     = called (trace s) ++ map fn_name before ++ [fn_name fn]
  /\ self (snd run) = snd (fn_body fn (self s1)).
Proof.
  intros Hbefore Hfn run.
  assert (Hrun : run = (Raise e,
                        set_self (snd (fn_body fn (self s1)))
                          (add_trace [EvCall (fn_name fn)] s1))).
  { unfold run. rewrite call_all_app, (bind_ok _ _ _ _ _ Hbefore). simpl.
    apply bind_raise. by rewrite call_eq, Hfn. }
  rewrite Hrun. simpl. split; [done|]. split; [|done].
  destruct (call_all_spec _ _ _ _ Hbefore) as (_ & _ & _ & _ & _ & _ & Hok).
  destruct (Hok eq_refl) as [Hc _].
  rewrite called_app, Hc. simpl. by rewrite <- app_assoc.
Qed.

Lemma X12_failing_function_stops_the_rest_witness :
  let run := call_all ([Demo.f] ++ Demo.boom :: [Demo.g1]) Demo.s0 in
  fst run = Raise (UserError "ValueError")
  /\ called (trace (snd run))
     = called (trace Demo.s0) ++ map fn_name [Demo.f] ++ [fn_name Demo.boom].
Proof.
  intros run.
  destruct (X12_failing_function_stops_the_rest [Demo.f] [Demo.g1] Demo.boom
              Demo.s0 (snd (call_all [Demo.f] Demo.s0))
              (UserError "ValueError")) as (H1 & H2 & _).
  - vm_compute; reflexivity.
  - reflexivity.
  - split; [exact H1|exact H2].
Defined.

(** X13: a call never makes a recorded digest unrecorded, however it ends,
    as long as the configuration functions themselves leave recorded
    digests alone: the applied-files list only grows. *)
Theorem X13_applied_list_never_shrinks
  (interp : list byte -> list stmt) (directory_path : string)
  (files : list string) (s s' : state) (r : res unit) (d : string) :
  add_modules interp directory_path files s = (r, s') ->
  (forall c, Forall digest_stable (registered (interp c))) ->
  recorded d (self s) -> recorded d (self s').
Proof.
  intros Hrun Hstable Hd.
  destruct (load_loop interp directory_path files [] s) as [[fs|e] s1] eqn:Hload.
  - destruct (load_loop_spec interp directory_path files _ _ _ _ Hload)
      as (_ & _ & Hmono & _).
    destruct (add_modules_eq _ _ _ _ _ _ Hload) as [Heq _].
    rewrite Heq in Hrun.
    destruct (call_all_spec _ _ _ _ Hrun) as (_ & _ & _ & _ & _ & Hkeep & _).
    apply Hkeep; [|by apply Hmono].
    apply (loaded_functions_stable _ _ _ _ _ _ Hload). intros f c _ _. apply Hstable.
  - destruct (load_loop_spec interp directory_path files _ _ _ _ Hload)
      as (_ & _ & Hmono & _).
    unfold add_modules in Hrun. rewrite (bind_raise _ _ _ _ _ Hload) in Hrun.
    injection Hrun as _ <-. by apply Hmono.
Qed.

Lemma X13_applied_list_never_shrinks_witness :
  let s := snd (add_modules Demo.interp "/etc/app" ["A.py"] Demo.s0) in
  let s' := snd (add_modules Demo.interp "/etc/app" ["boom.py"; "missing.py"] s) in
  recorded Demo.hash_A (self s) /\ recorded Demo.hash_A (self s').
Proof.
  intros s s'.
  assert (H : recorded Demo.hash_A (self s)) by (vm_compute; reflexivity).
  split; [exact H|].
  apply (X13_applied_list_never_shrinks Demo.interp "/etc/app"
           ["boom.py"; "missing.py"] s s'
           (fst (add_modules Demo.interp "/etc/app" ["boom.py"; "missing.py"] s))
           Demo.hash_A).
  - unfold s'. by destruct (add_modules _ _ _ s).
  - apply demo_functions_stable.
  - exact H.
Defined.

(** X14: a call whose files are all recorded already does nothing but
    compute their digests: it returns normally, imports nothing, calls
    nothing, and leaves the host, the registry and [sys.modules] alone. *)
Theorem X14_recorded_files_are_only_hashed
  (interp : list byte -> list stmt) (directory_path : string)
  (files : list string) (s : state) :
  Forall (fun f => exists c,
              disk s !! path_join directory_path f = Some c
              /\ recorded (file_digest c) (self s)) files ->
  add_modules interp directory_path files s
  = (Ok tt,
     add_trace (map (fun f => EvHash (path_join directory_path f)) files) s).
Proof.
  intros Hall. unfold add_modules.
  by rewrite (bind_ok _ _ _ _ _ (load_loop_skip _ _ files [] s Hall)).
Qed.

Lemma X14_recorded_files_are_only_hashed_witness :
  let s := snd (add_modules Demo.interp "/etc/app" ["B.py"; "A.py"] Demo.s0) in
  add_modules Demo.interp "/etc/app" ["A.py"; "/srv/alt/A.py"] s
  = (Ok tt,
     add_trace [EvHash "/etc/app/A.py"; EvHash "/srv/alt/A.py"] s).
Proof.
  intros s.
  apply (X14_recorded_files_are_only_hashed Demo.interp "/etc/app"
           ["A.py"; "/srv/alt/A.py"] s).
  repeat constructor.
  - exists (bytes_of_string Demo.src_A).
    split; [vm_compute; reflexivity|vm_compute; reflexivity].
  - exists (bytes_of_string Demo.src_B).
    split; [vm_compute; reflexivity|vm_compute; reflexivity].
Defined.

Section AppliedList.

Variable interp : list byte -> list stmt.
Variable directory_path : string.

Lemma load_loop_applied_list (files : list string) :
  forall (fs fs' : list (string * list cfun)) (s s1 : state)
         (xs : list value),
    load_loop interp directory_path files fs s = (Ok fs', s1) ->
    inst_dict (self s) !! "__files__" = Some (VList xs) ->
    exists ps,
      imported (trace s1) = imported (trace s) ++ ps
      /\ inst_dict (self s1) !! "__files__"
         = Some (VList (xs ++ map (fun p => VStr (digest_of_path (disk s) p)) ps)).
Proof.
  induction files as [|f files IH]; intros fs fs' s s1 xs Hloop Hxs.
  - injection Hloop as _ <-. exists []. simpl. by rewrite !app_nil_r.
  - simpl in Hloop.
    apply bind_inv in Hloop as [(fs1 & s2 & Hone & Hrest)|(e & _ & He)];
      [|discriminate].
    rewrite load_one_eq in Hone. cbv zeta in Hone.
    destruct (disk s !! path_join directory_path f) as [c|] eqn:Hc;
      [|discriminate].
    destruct (fst (hash_seen (file_digest c) (self s))) as [[|]|e] eqn:Hseen;
      [| |discriminate].
    + injection Hone as <- <-.
      destruct (IH _ _ _ _ xs Hrest Hxs) as (ps & Himp & Hlist).
      exists ps. simpl in Himp, Hlist. rewrite imported_app in Himp.
      simpl in Himp. rewrite app_nil_r in Himp. done.
    + rewrite import_from_filepath_eq in Hone. simpl in Hone.
      rewrite Hc in Hone.
      destruct (supported (path_join directory_path f)); [|discriminate].
      destruct (body_exn (interp c)); [discriminate|]. simpl in Hone.
      assert (Happ : append_hash (file_digest c) (self s)
                     = (Ok tt, object_setattr (self s) "__files__"
                                 (VList (xs ++ [VStr (file_digest c)])))).
      { unfold append_hash, py_getattr. by rewrite Hxs. }
      rewrite Happ in Hone. injection Hone as <- <-.
      destruct (IH _ _ _ _ (xs ++ [VStr (file_digest c)]) Hrest)
        as (ps & Himp & Hlist).
      { simpl. by rewrite lookup_insert_eq. }
      exists (path_join directory_path f :: ps).
      simpl in Himp, Hlist. rewrite !imported_app in Himp. simpl in Himp.
      rewrite app_nil_r, <- app_assoc in Himp. simpl in Himp.
      split; [exact Himp|]. rewrite Hlist. simpl.
      unfold digest_of_path at 2. rewrite Hc. by rewrite <- app_assoc.
Qed.

End AppliedList.

(** X15: the digests are appended to the host's list in the order in which
    their files are imported, after the digests that were there: the list
    records the order of application. *)
Theorem X15_digests_appended_in_load_order
  (interp : list byte -> list stmt) (directory_path : string)
  (files : list string) (s s1 : state) (fs : list (string * list cfun))
  (xs : list value) :
  load_loop interp directory_path files [] s = (Ok fs, s1) ->
  inst_dict (self s) !! "__files__" = Some (VList xs) ->
  inst_dict (self s1) !! "__files__"
  = Some (VList (xs ++ map (fun p => VStr (digest_of_path (disk s) p))
                           (map fst fs))).
Proof.
  intros Hload Hxs.
  destruct (load_loop_applied_list _ _ _ _ _ _ _ _ Hload Hxs)
    as (ps & Himp & Hlist).
  destruct (load_loop_spec interp directory_path files _ _ _ _ Hload)
    as (_ & _ & _ & _ & Hok).
  destruct (Hok fs eq_refl) as (_ & _ & Hdict).
  destruct Hdict as (_ & new & Hnew & _ & Himp').
  { split; constructor. }
  simpl in Hnew. subst new. rewrite Himp in Himp'.
  apply app_inv_head in Himp'. by subst ps.
Qed.

Lemma X15_digests_appended_in_load_order_witness :
  let s1 := snd (load_loop Demo.interp "/etc/app" ["B.py"; "A.py"] [] Demo.s0) in
  inst_dict (self s1) !! "__files__"
  = Some (VList ([] ++ map (fun p => VStr (digest_of_path (disk Demo.s0) p))
                           ["/etc/app/B.py"; "/etc/app/A.py"])).
Proof.
  intros s1.
  apply (X15_digests_appended_in_load_order Demo.interp "/etc/app"
           ["B.py"; "A.py"] Demo.s0 s1
           [("/etc/app/B.py", [Demo.g1; Demo.g2]); ("/etc/app/A.py", [Demo.f])]).
  - vm_compute; reflexivity.
  - reflexivity.
Defined.

(** ** The module identifier *)

Lemma split_on_pieces (sep c : ascii) (s : string) :
  (c = sep \/ has_char c s = false) ->
  Forall (fun w => has_char c w = false) (split_on sep s).
Proof.
  intros Hc. induction s as [|a s IH]; simpl.
  - by repeat constructor.
  - assert (Hs : c = sep \/ has_char c s = false).
    { destruct Hc as [->|H]; [by left|]. simpl in H.
      apply orb_false_iff in H as [_ H]. by right. }
    specialize (IH Hs).
    destruct (Ascii.eqb_spec a sep) as [->|Hne].
    + by constructor.
    + destruct (split_on sep s) as [|w ws]; simpl.
      * repeat constructor. simpl.
        destruct Hc as [->|H].
        -- apply orb_false_iff. split; [by apply Ascii.eqb_neq|done].
        -- simpl in H. apply orb_false_iff in H as [H _].
           by rewrite H.
      * apply Forall_cons in IH as [Hw Hws]. constructor; [|exact Hws].
        simpl. rewrite Hw, orb_false_r.
        destruct Hc as [->|H]; [by apply Ascii.eqb_neq|].
        simpl in H. by apply orb_false_iff in H as [H _].
Qed.

Lemma last_Forall {A} (P : A -> Prop) (xs : list A) (d : A) :
  P d -> Forall P xs -> P (List.last xs d).
Proof.
  intros Hd Hxs. induction Hxs as [|x xs Hx Hxs IH]; simpl; [exact Hd|].
  destruct xs; [exact Hx|exact IH].
Qed.

(** X16: whatever the path, the identifier derived from it contains no
    ['/'] and no ['.']. *)
Theorem X16_identifier_has_no_separator (filepath : string) :
  has_char "/" (module_name_of filepath) = false
  /\ has_char "." (module_name_of filepath) = false.
Proof.
  unfold module_name_of.
  set (name := List.last (split_on "/" filepath) EmptyString).
  assert (Hname : has_char "/" name = false).
  { apply (last_Forall (fun w => has_char "/" w = false)); [reflexivity|].
    apply split_on_pieces. by left. }
  pose proof (split_on_pieces "." "/" name (or_intror Hname)) as Hslash.
  pose proof (split_on_pieces "." "." name (or_introl eq_refl)) as Hdot.
  destruct (split_on "." name) as [|w ws]; simpl; [done|].
  apply Forall_cons in Hslash as [Hs _]. apply Forall_cons in Hdot as [Hd _].
  done.
Qed.



(** ** The digest as a string *)

Lemma all_chars_append (P : ascii -> bool) (a b : string) :
  all_chars P (a +:+ b) = all_chars P a && all_chars P b.
Proof.
  induction a as [|c a IH]; simpl; [reflexivity|].
  by rewrite IH, andb_assoc.
Qed.

Lemma length_append (a b : string) :
  String.length (a +:+ b) = String.length a + String.length b.
Proof. induction a as [|c a IH]; simpl; [reflexivity|]. by rewrite IH. Qed.

Lemma hexdigit_is_hex (z : Z) : is_hex (Sha256.hexdigit (z mod 16)) = true.
Proof.
  pose proof (Z.mod_pos_bound z 16 ltac:(lia)) as Hb.
  unfold Sha256.hexdigit.
  assert (Hn : Z.to_nat (z mod 16) < 16) by lia.
  destruct (Z.to_nat (z mod 16)) as [|n]; [reflexivity|].
  do 15 (destruct n as [|n]; [reflexivity|]). lia.
Qed.

Lemma hex_of_Z_format (n : nat) :
  forall z : Z,
    String.length (Sha256.hex_of_Z n z) = n
    /\ all_chars is_hex (Sha256.hex_of_Z n z) = true.
Proof.
  induction n as [|n IH]; intros z; simpl; [done|].
  destruct (IH (z / 16)%Z) as [Hlen Hhex].
  rewrite length_append, all_chars_append, Hlen, Hhex. simpl.
  rewrite hexdigit_is_hex. split; [lia|done].
Qed.

(** X18: for a readable file [calculate_hash] returns the SHA-256 of the
    whole content as 64 lower-case hexadecimal characters, whatever the
    size of the file, and changes nothing in the interpreter. *)
Theorem X18_calculate_hash_result (file_path : string) (c : list byte)
  (s : state) :
  disk s !! file_path = Some c ->
  exists d,
    calculate_hash file_path s = (Ok d, add_trace [EvHash file_path] s)
    /\ d = Sha256.hexdigest (Sha256.update Sha256.new c)
    /\ String.length d = 64
    /\ all_chars is_hex d = true.
Proof.
  intros Hc. exists (file_digest c). split; [|split].
  - unfold calculate_hash, emit, modify, read_file, mbind, M_bind, mret, M_ret,
      add_trace. simpl. by rewrite Hc.
  - unfold file_digest. apply hash_bytes_oneshot. lia.
  - unfold file_digest, hash_bytes, Sha256.hexdigest. apply hex_of_Z_format.
Qed.

Lemma X18_calculate_hash_result_witness :
  exists d,
    calculate_hash "/etc/app/A.py" Demo.s0
    = (Ok d, add_trace [EvHash "/etc/app/A.py"] Demo.s0)
    /\ String.length d = 64.
Proof.
  destruct (X18_calculate_hash_result "/etc/app/A.py"
              (bytes_of_string Demo.src_A) Demo.s0 eq_refl)
    as (d & H1 & _ & H2 & _).
  exists d. split; [exact H1|exact H2].
Defined.

(** ** Configuration functions and the lock *)

(** X19: a configuration function cannot give a locked host a new
    attribute: the assignment raises [AttributeError], the apply phase
    ends there, and the host is as it was. *)
Theorem X19_configuration_cannot_add_attributes
  (name k : string) (v : value) (rest : list cfun) (s : state) :
  is_locked (self s) = true ->
  py_hasattr (self s) k = false ->
  call_all (CFun name (base_setattr k v) :: rest) s
  = (Raise (AttributeError ("Cannot add new attribute '" +:+ k
                            +:+ "' to instances of " +:+ class_name (self s))),
     add_trace [EvCall name] s).
Proof.
  unfold is_locked. intros Hlocked Hhas. simpl. apply bind_raise.
  rewrite call_eq. simpl. unfold base_setattr. rewrite Hlocked, Hhas. simpl.
  unfold set_self, add_trace. simpl. reflexivity.
Qed.

Lemma X19_configuration_cannot_add_attributes_witness :
  call_all [CFun "grow" (base_setattr "y" (VInt 1)); Demo.f] Demo.s0
  = (Raise (AttributeError "Cannot add new attribute 'y' to instances of Host"),
     add_trace [EvCall "grow"] Demo.s0).
Proof.
  apply (X19_configuration_cannot_add_attributes "grow" "y" (VInt 1) [Demo.f]
           Demo.s0); reflexivity.
Defined.
